(** * SafePay fraud-detection backend: inference dispatch layer

    A shallow embedding of

    - [app/utils/preprocessing.py]   (validators and feature builders),
    - [app/models/model_loader.py]   ([MultiModelLoader]),
    - [app/services/fraud_service.py] ([FraudDetectionService]),
    - [app/schemas/prediction.py]    (request and response records),

    followed by the properties established about them.

    Python values are modelled as they are at run time: [int] is unbounded
    ([Z]), [float] is IEEE-754 binary64 (the kernel's primitive floats), [bool]
    is a subclass of [int], [str] is a sequence of code points (here: below
    256), a [dict] with string keys is a finite map.  Exceptions are explicit:
    a computation yields [Ok v] or [Raise e]. *)

From Stdlib Require Import ZArith Ascii String.
From Stdlib Require Floats.
From stdpp Require Import base option list strings gmap pretty.
Import Floats.PrimFloat Floats.SpecFloat Floats.FloatOps.

#[local] Set Warnings "-inexact-float,-register-all".
#[local] Open Scope string_scope.
#[local] Open Scope Z_scope.

(* ===================================================================== *)
(** ** Python run-time model *)
(* ===================================================================== *)

Module Py.

(** Values that a JSON-like record can hold. *)
Inductive PyVal : Type :=
| VNone
| VBool (b : bool)
| VInt (z : Z)
| VFloat (f : float)
| VStr (s : string)
| VList (l : list PyVal).

(** The exception classes that occur; every one is a subclass of
    [Exception].  [HTTPException] is FastAPI's. *)
Inductive Exn : Type :=
| KeyError (key : string)
| IndexError (msg : string)
| TypeError (msg : string)
| ValueError (msg : string)
| OverflowError (msg : string)
| AttributeError (msg : string)
| OSError (msg : string)
| RuntimeError (msg : string)
| HTTPException (status_code : Z) (detail : string).

Inductive Outcome (A : Type) : Type :=
| Ok (a : A)
| Raise (e : Exn).
Arguments Ok {A} a.
Arguments Raise {A} e.

#[global] Instance Outcome_ret : MRet Outcome := fun A a => Ok a.
#[global] Instance Outcome_bind : MBind Outcome := fun A B k m =>
  match m with
  | Ok a => k a
  | Raise e => Raise e
  end.

(** [isinstance(e, ValueError)] *)
Definition is_ValueError (e : Exn) : bool :=
  match e with ValueError _ => true | _ => false end.

(** State and exceptions: a raise keeps the state reached so far. *)
Definition M (S A : Type) : Type := S -> Outcome A * S.

#[global] Instance M_ret {S} : MRet (M S) := fun A a s => (Ok a, s).
#[global] Instance M_bind {S} : MBind (M S) := fun A B k m s =>
  match m s with
  | (Ok a, s') => k a s'
  | (Raise e, s') => (Raise e, s')
  end.

Definition lift {S A} (o : Outcome A) : M S A := fun s => (o, s).
Definition raise {S A} (e : Exn) : M S A := fun s => (Raise e, s).
Definition gets {S A} (f : S -> A) : M S A := fun s => (Ok (f s), s).
Definition modify {S} (f : S -> S) : M S unit := fun s => (Ok tt, f s).

(** [try: body  except Exception as e: handler e] *)
Definition try_except {S A} (body : M S A) (handler : Exn -> M S A) : M S A :=
  fun s =>
    match body s with
    | (Ok a, s') => (Ok a, s')
    | (Raise e, s') => handler e s'
    end.

(** What the interpreter and its environment fix for one process: the
    (seeded) string hash, the shortest-repr printing of floats, the
    printing of lists, the parsing of a float literal, and [str] of an
    [HTTPException]. *)
Record Runtime : Type := {
  rt_hash : string -> Z;
  rt_float_repr : float -> string;
  rt_list_repr : list PyVal -> string;
  rt_parse_float : string -> Outcome float;
  rt_http_str : Z -> string -> string;
}.

(** *** Numbers *)

(** [isinstance(v, (int, float))]; [bool] is a subclass of [int]. *)
Definition isinstance_int_float (v : PyVal) : bool :=
  match v with
  | VBool _ | VInt _ | VFloat _ => true
  | _ => false
  end.

(** [isinstance(v, str)] *)
Definition isinstance_str (v : PyVal) : bool :=
  match v with VStr _ => true | _ => false end.

Definition Z_of_bool (b : bool) : Z := if b then 1 else 0.

(** [v < 0] *)
Definition lt_zero (v : PyVal) : Outcome bool :=
  match v with
  | VBool b => Ok (Z_of_bool b <? 0)
  | VInt z => Ok (z <? 0)
  | VFloat f => Ok (PrimFloat.ltb f 0%float)
  | _ => Raise (TypeError "'<' not supported")
  end.

(** [v <= 0] *)
Definition le_zero (v : PyVal) : Outcome bool :=
  match v with
  | VBool b => Ok (Z_of_bool b <=? 0)
  | VInt z => Ok (z <=? 0)
  | VFloat f => Ok (PrimFloat.leb f 0%float)
  | _ => Raise (TypeError "'<=' not supported")
  end.

(** [int] to [float]: round to nearest even, [OverflowError] when the
    result is not finite. *)
Definition float_of_Z (z : Z) : Outcome float :=
  let f := SF2Prim (binary_normalize prec emax z 0 false) in
  if PrimFloat.is_infinity f
  then Raise (OverflowError "int too large to convert to float")
  else Ok f.

(** [float(v)] *)
Definition py_float (rt : Runtime) (v : PyVal) : Outcome float :=
  match v with
  | VBool b => float_of_Z (Z_of_bool b)
  | VInt z => float_of_Z z
  | VFloat f => Ok f
  | VStr s => rt_parse_float rt s
  | _ => Raise (TypeError "float() argument must be a string or a real number")
  end.

(** The two arithmetic operators of the numeric tower: [int] with [int]
    is exact, anything with a [float] is binary64 after converting the
    [int] operand. *)
Definition arith (opZ : Z -> Z -> Z) (opF : float -> float -> float)
    (a b : PyVal) : Outcome PyVal :=
  match a, b with
  | VFloat x, VFloat y => Ok (VFloat (opF x y))
  | VFloat x, VInt z => y ← float_of_Z z; Ok (VFloat (opF x y))
  | VFloat x, VBool c => y ← float_of_Z (Z_of_bool c); Ok (VFloat (opF x y))
  | VInt z, VFloat y => x ← float_of_Z z; Ok (VFloat (opF x y))
  | VBool c, VFloat y => x ← float_of_Z (Z_of_bool c); Ok (VFloat (opF x y))
  | VInt x, VInt y => Ok (VInt (opZ x y))
  | VInt x, VBool c => Ok (VInt (opZ x (Z_of_bool c)))
  | VBool c, VInt y => Ok (VInt (opZ (Z_of_bool c) y))
  | VBool c, VBool d => Ok (VInt (opZ (Z_of_bool c) (Z_of_bool d)))
  | _, _ => Raise (TypeError "unsupported operand type(s)")
  end.

(** [a - b] *)
Definition py_sub : PyVal -> PyVal -> Outcome PyVal := arith Z.sub PrimFloat.sub.

(** [a + b]; two strings and two lists concatenate. *)
Definition py_add (a b : PyVal) : Outcome PyVal :=
  match a, b with
  | VStr x, VStr y => Ok (VStr (x +:+ y))
  | VList x, VList y => Ok (VList (x ++ y)%list)
  | _, _ => arith Z.add PrimFloat.add a b
  end.

(** *** Strings *)

(** [c.isspace()] for a code point below 256. *)
Definition is_space (c : ascii) : bool :=
  let n := N_of_ascii c in
  ((9 <=? n) && (n <=? 13) || (28 <=? n) && (n <=? 32)
   || (n =? 133) || (n =? 160))%N.

Fixpoint lstrip (s : string) : string :=
  match s with
  | EmptyString => EmptyString
  | String c s' => if is_space c then lstrip s' else s
  end.

Fixpoint rstrip (s : string) : string :=
  match s with
  | EmptyString => EmptyString
  | String c s' =>
      match rstrip s' with
      | EmptyString => if is_space c then EmptyString else String c EmptyString
      | r => String c r
      end
  end.

(** [s.strip()] *)
Definition strip (s : string) : string := rstrip (lstrip s).

Definition lower_char (c : ascii) : ascii :=
  let n := N_of_ascii c in
  if ((65 <=? n) && (n <=? 90)
      || (192 <=? n) && (n <=? 222) && negb (n =? 215))%N
  then ascii_of_N (n + 32)
  else c.

(** [s.lower()] *)
Fixpoint lower (s : string) : string :=
  match s with
  | EmptyString => EmptyString
  | String c s' => String (lower_char c) (lower s')
  end.

(** [str(v)], also what an f-string inserts. *)
Definition py_str (rt : Runtime) (v : PyVal) : string :=
  match v with
  | VNone => "None"
  | VBool true => "True"
  | VBool false => "False"
  | VInt z => pretty z
  | VFloat f => rt_float_repr rt f
  | VStr s => s
  | VList l => rt_list_repr rt l
  end.

(** [str(e)] *)
Definition str_exn (rt : Runtime) (e : Exn) : string :=
  match e with
  | KeyError k => "'" +:+ k +:+ "'"
  | IndexError m | TypeError m | ValueError m | OverflowError m
  | AttributeError m | OSError m | RuntimeError m => m
  | HTTPException c d => rt_http_str rt c d
  end.

(** [bool(v)] *)
Definition truthy (v : PyVal) : bool :=
  match v with
  | VNone => false
  | VBool b => b
  | VInt z => negb (z =? 0)
  | VFloat f => negb (PrimFloat.eqb f 0%float)
  | VStr s => negb (String.eqb s "")
  | VList l => match l with [] => false | _ => true end
  end.

(** *** Dictionaries with string keys *)

Abbreviation Dict := (gmap string PyVal).

(** [d[k]] *)
Definition getitem {V} (d : gmap string V) (k : string) : Outcome V :=
  match d !! k with
  | Some v => Ok v
  | None => Raise (KeyError k)
  end.

(** [d.get(k, default)] for an arbitrary key object [k]: a list is not
    hashable, and no other non-string equals a string key. *)
Definition dict_get {V} (d : gmap string V) (k : PyVal) (dflt : V) : Outcome V :=
  match k with
  | VStr s => Ok (default dflt (d !! s))
  | VList _ => Raise (TypeError "unhashable type: 'list'")
  | _ => Ok dflt
  end.

(** [v in l] for a list [l] of string literals. *)
Definition in_strs (v : PyVal) (l : list string) : bool :=
  match v with
  | VStr s => bool_decide (s ∈ l)
  | _ => false
  end.

(** Log records emitted through [logging]. *)
Inductive Level : Type := DEBUG | INFO | WARNING | ERROR.
Definition LogRecord : Type := (Level * string)%type.

(** Loops over a list of names. [all_fields check l] is
    [for x in l: if not check(x): return False] followed by falling
    through; [for_fold l acc body] threads the local list a loop appends to. *)
Fixpoint all_fields (check : string -> Outcome bool) (l : list string) : Outcome bool :=
  match l with
  | [] => Ok true
  | x :: l' => ok ← check x; if ok : bool then all_fields check l' else Ok false
  end.

(** [l.append(x)] *)
Definition append {A} (l : list A) (x : A) : list A := (l ++ [x])%list.

Fixpoint for_fold {S A B} (l : list A) (acc : B) (body : B -> A -> M S B) : M S B :=
  match l with
  | [] => mret acc
  | x :: l' => acc' ← body acc x; for_fold l' acc' body
  end.

End Py.

(* ===================================================================== *)
(** ** app/utils/preprocessing.py *)
(* ===================================================================== *)

Module Preprocessing.
Import Py.

(** A fitted encoder, seen through the one use made of it:
    [int(enc.transform([v])[0])], an integer code or an exception
    ([ValueError] for a value outside the fitted vocabulary). *)
Definition Transformer : Type := PyVal -> Outcome Z.

(** What a dict used as encoder holds under a key: an integer code (the
    online-payment mapping) or a fitted encoder (the credit-card map). *)
Inductive EncEntry : Type :=
| EInt (z : Z)
| EFitted (t : Transformer).

(** The [label_encoder] / [label_encoders] argument: [None], an object with
    a [transform] method, or a dict. *)
Inductive Encoder : Type :=
| EncNone
| EncFitted (t : Transformer)
| EncDict (d : gmap string EncEntry).

(** [int(x)] of an encoded value. *)
Definition py_int (x : EncEntry) : Outcome Z :=
  match x with
  | EInt z => Ok z
  | EFitted _ => Raise (TypeError "int() argument must be a string or a real number")
  end.

(** [x.transform([v])[0]] of a dict entry. *)
Definition entry_transform (x : EncEntry) (v : PyVal) : Outcome Z :=
  match x with
  | EFitted t => t v
  | EInt _ => Raise (AttributeError "'int' object has no attribute 'transform'")
  end.

(** The objects a call works on: both arguments are passed by reference,
    and the module's logger is shared. *)
Record Frame : Type := {
  fr_data : Dict;
  fr_encoder : Encoder;
  fr_log : list LogRecord;
}.

(** [data[k]] *)
Definition data_item (k : string) : M Frame PyVal :=
  fun fr => (getitem (fr_data fr) k, fr).

Definition logger_log (lvl : Level) (msg : string) : M Frame unit :=
  modify (fun fr => {| fr_data := fr_data fr; fr_encoder := fr_encoder fr;
                       fr_log := append (fr_log fr) (lvl, msg) |}).

Definition fallback_mapping : gmap string Z :=
  list_to_map [("PAYMENT", 0); ("TRANSFER", 1); ("CASH_OUT", 2); ("DEBIT", 3); ("CASH_IN", 4)].

(** [fallback_mapping.get(data['type'], 0)] *)
Definition fallback_type : M Frame EncEntry :=
  ty ← data_item "type";
  z ← lift (dict_get fallback_mapping ty 0);
  mret (EInt z).

Section WithRuntime.
Context (rt : Runtime).

(** Lines 19-36: the encoding of [data['type']]. A dict is truthy when it
    is not empty; an object with [transform] is truthy. *)
Definition encode_type : M Frame EncEntry :=
  try_except
    (label_encoder ← gets fr_encoder;
     match label_encoder with
     | EncFitted t =>
         ty ← data_item "type";
         z ← lift (t ty);
         mret (EInt z)
     | EncDict d =>
         if bool_decide (size d ≠ 0%nat)
         then ty ← data_item "type"; lift (dict_get d ty (EInt 0))
         else fallback_type
     | EncNone => fallback_type
     end)
    (fun e =>
       if is_ValueError e
       then ty ← data_item "type";
            _ ← logger_log WARNING
                  ("Unknown transaction type: " +:+ py_str rt ty +:+ ", using fallback");
            fallback_type
       else _ ← logger_log ERROR ("Error encoding transaction type: " +:+ str_exn rt e);
            fallback_type).

Definition preprocess_online_payment_data : M Frame (list PyVal) :=
  type_encoded ← encode_type;
  oldOrg ← data_item "oldbalanceOrg";
  newOrig ← data_item "newbalanceOrig";
  d1 ← lift (py_sub oldOrg newOrig);
  amount1 ← data_item "amount";
  diffOrig ← lift (py_add d1 amount1);
  newDest ← data_item "newbalanceDest";
  oldDest ← data_item "oldbalanceDest";
  d2 ← lift (py_sub newDest oldDest);
  amount2 ← data_item "amount";
  diffDest ← lift (py_sub d2 amount2);
  step ← data_item "step";
  amount ← data_item "amount";
  code ← lift (py_int type_encoded);
  mret [step; amount; VInt code; diffOrig; diffDest].

Definition required_fields_online : list string :=
  ["step"; "type"; "amount"; "oldbalanceOrg"; "newbalanceOrig"; "oldbalanceDest"; "newbalanceDest"].
Definition valid_types : list string :=
  ["PAYMENT"; "TRANSFER"; "CASH_OUT"; "DEBIT"; "CASH_IN"].
Definition numeric_fields_online : list string :=
  ["step"; "amount"; "oldbalanceOrg"; "newbalanceOrig"; "oldbalanceDest"; "newbalanceDest"].

(** [field in data] *)
Definition has_field (data : Dict) (field : string) : bool :=
  bool_decide (is_Some (data !! field)).

Definition validate_online_payment_data (data : Dict) : Outcome bool :=
  present ← all_fields (fun field => Ok (has_field data field)) required_fields_online;
  if negb present then Ok false else
  ty ← getitem data "type";
  if negb (in_strs ty valid_types) then Ok false else
  numeric ← all_fields
    (fun field =>
       v ← getitem data field;
       if negb (isinstance_int_float v) then Ok false else
       v' ← getitem data field;
       negative ← lt_zero v';
       Ok (negb negative))
    numeric_fields_online;
  if negb numeric then Ok false else
  Ok true.

Definition get_online_payment_feature_names : list string :=
  ["step"; "amount"; "type_encoded"; "diffOrig"; "diffDest"].

Definition numerical_features : list string :=
  ["amt"; "lat"; "long"; "city_pop"; "merch_lat"; "merch_long"].
Definition categorical_features : list string :=
  ["merchant"; "category"; "city"; "state"; "job"].

(** Lines 92-110: one categorical field when the encoder map is used.
    Nothing can raise between the append and the end of the [try]. *)
Definition encode_with_map (d : gmap string EncEntry) (features : list PyVal)
    (feature : string) : M Frame (list PyVal) :=
  match d !! feature with
  | Some encoder =>
      try_except
        (v ← data_item feature;
         encoded_value ← lift (entry_transform encoder (VStr (py_str rt v)));
         v' ← data_item feature;
         _ ← logger_log DEBUG
               ("Encoded " +:+ feature +:+ ": '" +:+ py_str rt v' +:+ "' -> "
                +:+ pretty encoded_value);
         mret (append features (VInt encoded_value)))
        (fun e =>
           if is_ValueError e
           then v ← data_item feature;
                _ ← logger_log WARNING
                      ("Unknown value for " +:+ feature +:+ ": '" +:+ py_str rt v
                       +:+ "', using 0");
                mret (append features (VInt 0))
           else _ ← logger_log ERROR
                      ("Error encoding " +:+ feature +:+ ": " +:+ str_exn rt e);
                mret (append features (VInt 0)))
  | None =>
      _ ← logger_log WARNING ("No encoder found for " +:+ feature);
      mret (append features (VInt 0))
  end.

(** Lines 114-121: one categorical field in the hash-based fallback. *)
Definition encode_with_hash (features : list PyVal) (feature : string)
    : M Frame (list PyVal) :=
  try_except
    (v ← data_item feature;
     let category_value := lower (strip (py_str rt v)) in
     let encoded_value := Z.abs (rt_hash rt category_value) `mod` 1000 in
     mret (append features (VInt encoded_value)))
    (fun e =>
       _ ← logger_log WARNING
             ("Error hash encoding " +:+ feature +:+ ": " +:+ str_exn rt e);
       mret (append features (VInt 0))).

Definition preprocess_credit_card_data : M Frame (list PyVal) :=
  features ← for_fold numerical_features []
    (fun features feature =>
       v ← data_item feature;
       f ← lift (py_float rt v);
       mret (append features (VFloat f)));
  label_encoders ← gets fr_encoder;
  match label_encoders with
  | EncDict d =>
      if bool_decide (size d ≠ 0%nat)
      then for_fold categorical_features features (encode_with_map d)
      else _ ← logger_log WARNING "Label encoders not available, using hash-based fallback";
           for_fold categorical_features features encode_with_hash
  | _ =>
      _ ← logger_log WARNING "Label encoders not available, using hash-based fallback";
      for_fold categorical_features features encode_with_hash
  end.

Definition required_fields_card : list string :=
  ["merchant"; "category"; "amt"; "city"; "state"; "lat"; "long"; "city_pop"; "job";
   "merch_lat"; "merch_long"].
Definition numeric_fields_card : list string :=
  ["amt"; "lat"; "long"; "city_pop"; "merch_lat"; "merch_long"].
Definition string_fields : list string :=
  ["merchant"; "category"; "city"; "state"; "job"].

(** [isinstance(v, str) and v.strip()] is truthy *)
Definition nonblank_str (v : PyVal) : bool :=
  match v with
  | VStr s => negb (String.eqb (strip s) "")
  | _ => false
  end.

Definition validate_credit_card_data (data : Dict) : Outcome bool :=
  present ← all_fields (fun field => Ok (has_field data field)) required_fields_card;
  if negb present then Ok false else
  numeric ← all_fields
    (fun field => v ← getitem data field; Ok (isinstance_int_float v))
    numeric_fields_card;
  if negb numeric then Ok false else
  amt ← getitem data "amt";
  nonpositive ← le_zero amt;
  if nonpositive : bool then Ok false else
  strings ← all_fields
    (fun field =>
       v ← getitem data field;
       if negb (isinstance_str v) then Ok false else
       v' ← getitem data field;
       Ok (nonblank_str v'))
    string_fields;
  if negb strings then Ok false else
  Ok true.

Definition get_credit_card_feature_names : list string :=
  ["amt"; "lat"; "long"; "city_pop"; "merch_lat"; "merch_long";
   "merchant_encoded"; "category_encoded"; "city_encoded"; "state_encoded"; "job_encoded"].

End WithRuntime.

End Preprocessing.

(* ===================================================================== *)
(** ** app/schemas/prediction.py *)
(* ===================================================================== *)

Module Schemas.
Import Py.

Record OnlinePaymentInput : Type := {
  step : Z;
  type : string;
  amount : float;
  oldbalanceOrg : float;
  newbalanceOrig : float;
  oldbalanceDest : float;
  newbalanceDest : float;
}.

Record CreditCardInput : Type := {
  merchant : string;
  category : string;
  amt : float;
  city : string;
  state : string;
  lat : float;
  long : float;
  city_pop : Z;
  job : string;
  merch_lat : float;
  merch_long : float;
}.

(** [data.dict()]: a fresh dict per call. *)
Definition online_dict (data : OnlinePaymentInput) : Dict :=
  list_to_map
    [("step", VInt (step data)); ("type", VStr (type data));
     ("amount", VFloat (amount data));
     ("oldbalanceOrg", VFloat (oldbalanceOrg data));
     ("newbalanceOrig", VFloat (newbalanceOrig data));
     ("oldbalanceDest", VFloat (oldbalanceDest data));
     ("newbalanceDest", VFloat (newbalanceDest data))].

Definition card_dict (data : CreditCardInput) : Dict :=
  list_to_map
    [("merchant", VStr (merchant data)); ("category", VStr (category data));
     ("amt", VFloat (amt data)); ("city", VStr (city data));
     ("state", VStr (state data)); ("lat", VFloat (lat data));
     ("long", VFloat (long data)); ("city_pop", VInt (city_pop data));
     ("job", VStr (job data)); ("merch_lat", VFloat (merch_lat data));
     ("merch_long", VFloat (merch_long data))].

Record FraudDetectionResponse : Type := {
  model_type : string;
  is_fraud : bool;
  fraud_probability : float;
  confidence_level : string;
  risk_score : string;
  transaction_amount : float;
  features_used : Dict;
}.

End Schemas.

(* ===================================================================== *)
(** ** app/models/model_loader.py *)
(* ===================================================================== *)

Module ModelLoader.
Import Py Preprocessing.

(** A deserialized estimator: its declared input width, [predict], and
    [predict_proba] when it has one. *)
Record Estimator : Type := {
  n_features_in_ : Z;
  est_predict : list (list PyVal) -> Outcome (list PyVal);
  est_predict_proba : option (list (list PyVal) -> Outcome (list (list float)));
}.

Record MultiModelLoader : Type := {
  models : gmap string Estimator;
  label_encoders : gmap string Encoder;
  loaded_models : gmap string bool;
}.

(** [MultiModelLoader()] *)
Definition init : MultiModelLoader :=
  {| models := ∅; label_encoders := ∅; loaded_models := ∅ |}.

(** The artifact store as [load_model] sees it: [Path(p).exists()],
    [joblib.load(p)] and [open(p, 'rb')] with [pickle.load] for a model,
    [joblib.load(p)] for an encoder. *)
Record FileSystem : Type := {
  fs_exists : string -> bool;
  fs_joblib_model : string -> Outcome Estimator;
  fs_pickle_model : string -> Outcome Estimator;
  fs_joblib_encoder : string -> Outcome Encoder;
}.

(** Calls that leave the process's own code, in the order made. *)
Inductive Call : Type :=
| CallBuild (domain : string)
| CallPredict (domain : string) (features : list (list PyVal))
| CallPredictProba (domain : string) (features : list (list PyVal)).

(** The registry instance, the logger and the calls made so far. *)
Record World : Type := {
  w_loader : MultiModelLoader;
  w_log : list LogRecord;
  w_trace : list Call;
}.

Definition logger_log (lvl : Level) (msg : string) : M World unit :=
  modify (fun w => {| w_loader := w_loader w; w_log := append (w_log w) (lvl, msg);
                      w_trace := w_trace w |}).

Definition record_call (c : Call) : M World unit :=
  modify (fun w => {| w_loader := w_loader w; w_log := w_log w;
                      w_trace := append (w_trace w) c |}).

Definition update_loader (f : MultiModelLoader -> MultiModelLoader) : M World unit :=
  modify (fun w => {| w_loader := f (w_loader w); w_log := w_log w; w_trace := w_trace w |}).

(** [self.models[name] = m] *)
Definition set_model (name : string) (m : Estimator) : M World unit :=
  update_loader (fun self =>
    {| models := <[name := m]> (models self); label_encoders := label_encoders self;
       loaded_models := loaded_models self |}).

(** [self.label_encoders[name] = e] *)
Definition set_label_encoder (name : string) (e : Encoder) : M World unit :=
  update_loader (fun self =>
    {| models := models self; label_encoders := <[name := e]> (label_encoders self);
       loaded_models := loaded_models self |}).

(** [self.loaded_models[name] = b] *)
Definition set_loaded (name : string) (b : bool) : M World unit :=
  update_loader (fun self =>
    {| models := models self; label_encoders := label_encoders self;
       loaded_models := <[name := b]> (loaded_models self) |}).

Section WithEnvironment.
Context (rt : Runtime) (fs : FileSystem).

(** [encoder_path and Path(encoder_path).exists()] *)
Definition encoder_available (encoder_path : option string) : bool :=
  match encoder_path with
  | Some p => negb (String.eqb p "") && fs_exists fs p
  | None => false
  end.

Definition str_path (encoder_path : option string) : string :=
  match encoder_path with Some p => p | None => "None" end.

Definition load_model (model_name model_path : string) (encoder_path : option string)
    : M World bool :=
  try_except
    (if negb (fs_exists fs model_path)
     then _ ← logger_log ERROR ("Model file not found: " +:+ model_path);
          mret false
     else
       _ ← try_except
             (m ← lift (fs_joblib_model fs model_path);
              _ ← set_model model_name m;
              logger_log INFO (model_name +:+ " model loaded with joblib"))
             (fun _ =>
                m ← lift (fs_pickle_model fs model_path);
                _ ← set_model model_name m;
                logger_log INFO (model_name +:+ " model loaded with pickle"));
       _ ← (if encoder_available encoder_path
            then try_except
                   (e ← lift (fs_joblib_encoder fs (str_path encoder_path));
                    _ ← set_label_encoder model_name e;
                    logger_log INFO (model_name +:+ " label encoder loaded from "
                                     +:+ str_path encoder_path))
                   (fun e =>
                      _ ← logger_log ERROR ("Error loading encoder for " +:+ model_name
                                            +:+ ": " +:+ str_exn rt e);
                      set_label_encoder model_name EncNone)
            else _ ← logger_log WARNING ("Label encoder not found for " +:+ model_name
                                         +:+ ": " +:+ str_path encoder_path);
                 set_label_encoder model_name EncNone);
       _ ← set_loaded model_name true;
       mret true)
    (fun e =>
       _ ← logger_log ERROR ("Error loading " +:+ model_name +:+ ": " +:+ str_exn rt e);
       _ ← set_loaded model_name false;
       mret false).

Definition get_model (model_name : string) : M World Estimator :=
  self ← gets w_loader;
  match loaded_models self !! model_name with
  | Some true => lift (getitem (models self) model_name)
  | _ => raise (ValueError ("Model " +:+ model_name +:+ " not loaded"))
  end.

(** [self.label_encoders.get(model_name)]; a missing key gives [None]. *)
Definition get_label_encoders (model_name : string) : M World Encoder :=
  self ← gets w_loader;
  mret (default EncNone (label_encoders self !! model_name)).

Definition predict (model_name : string) (features : list (list PyVal))
    : M World (list PyVal) :=
  model ← get_model model_name;
  _ ← record_call (CallPredict model_name features);
  lift (est_predict model features).

Definition predict_proba (model_name : string) (features : list (list PyVal))
    : M World (option (list (list float))) :=
  model ← get_model model_name;
  match est_predict_proba model with
  | Some proba =>
      _ ← record_call (CallPredictProba model_name features);
      probabilities ← lift (proba features);
      mret (Some probabilities)
  | None => mret None
  end.

Definition is_model_loaded (self : MultiModelLoader) (model_name : string) : bool :=
  default false (loaded_models self !! model_name).

Definition get_loaded_models_status (self : MultiModelLoader) : gmap string bool :=
  loaded_models self.

End WithEnvironment.

End ModelLoader.

(* ===================================================================== *)
(** ** app/services/fraud_service.py *)
(* ===================================================================== *)

Module FraudService.
Import Py Preprocessing Schemas ModelLoader.

Definition _assess_risk (probability : float) : string * string :=
  if PrimFloat.ltb 0.8%float probability then ("high", "HIGH")
  else if PrimFloat.ltb 0.6%float probability then ("medium", "MEDIUM")
  else if PrimFloat.ltb 0.4%float probability then ("medium", "MEDIUM")
  else ("high", "LOW").

(** [l[i]] on a list. *)
Definition index {A} (l : list A) (i : nat) : Outcome A :=
  match l !! i with
  | Some x => Ok x
  | None => Raise (IndexError "list index out of range")
  end.

(** A call of a feature builder from the service: the builder works on the
    dict made by [data.dict()], on the encoder object the registry holds and
    on the shared logger. *)
Definition call_builder (domain : string) (build : M Frame (list PyVal))
    (data : Dict) (encoder : Encoder) : M World (list PyVal) :=
  fun w =>
    let '(r, fr) := build {| fr_data := data; fr_encoder := encoder; fr_log := w_log w |} in
    (r, {| w_loader := w_loader w; w_log := fr_log fr;
           w_trace := append (w_trace w) (CallBuild domain) |}).

(** [for name, value in zip(names, features): features_dict[name] = value] *)
Definition features_dict (names : list string) (features : list PyVal) : Dict :=
  foldl (fun d nv => <[fst nv := snd nv]> d) ∅ (zip names features).

Section WithRuntime.
Context (rt : Runtime).

(** Lines 32-67 and 86-121, which the two methods share word for word
    apart from the domain name. *)
Definition check_predict_score (domain : string) (feature_names : list string)
    (features : list PyVal) (transaction_amount : float)
    : M World FraudDetectionResponse :=
  model ← get_model domain;
  let expected_features := n_features_in_ model in
  if bool_decide (Z.of_nat (length features) ≠ expected_features)
  then raise (ValueError ("Feature count mismatch: generated "
                          +:+ pretty (Z.of_nat (length features))
                          +:+ ", model expects " +:+ pretty expected_features))
  else
    predictions ← predict domain [features];
    p0 ← lift (index predictions 0);
    let prediction := truthy p0 in
    probabilities ← predict_proba domain [features];
    probability ← match probabilities with
                  | Some ps => row ← lift (index ps 0); lift (index row 1)
                  | None => mret 0%float
                  end;
    let '(confidence, risk) := _assess_risk probability in
    mret {| model_type := domain;
            is_fraud := prediction;
            fraud_probability := probability;
            confidence_level := confidence;
            risk_score := risk;
            transaction_amount := transaction_amount;
            features_used := features_dict feature_names features |}.

Definition predict_online_payment_fraud (data : OnlinePaymentInput)
    : M World FraudDetectionResponse :=
  try_except
    (valid ← lift (validate_online_payment_data (online_dict data));
     if negb valid
     then raise (HTTPException 400 "Invalid online payment data")
     else
       label_encoder ← get_label_encoders "online-payment";
       features ← call_builder "online-payment" (preprocess_online_payment_data rt)
                    (online_dict data) label_encoder;
       check_predict_score "online-payment" get_online_payment_feature_names
         features (amount data))
    (fun e =>
       _ ← logger_log ERROR ("Online payment prediction error: " +:+ str_exn rt e);
       raise (HTTPException 500 ("Online payment prediction failed: " +:+ str_exn rt e))).

Definition predict_credit_card_fraud (data : CreditCardInput)
    : M World FraudDetectionResponse :=
  try_except
    (valid ← lift (validate_credit_card_data (card_dict data));
     if negb valid
     then raise (HTTPException 400 "Invalid credit card data")
     else
       label_encoders ← get_label_encoders "credit-card";
       features ← call_builder "credit-card" (preprocess_credit_card_data rt)
                    (card_dict data) label_encoders;
       check_predict_score "credit-card" get_credit_card_feature_names
         features (amt data))
    (fun e =>
       _ ← logger_log ERROR ("Credit card prediction error: " +:+ str_exn rt e);
       raise (HTTPException 500 ("Credit card prediction failed: " +:+ str_exn rt e))).

End WithRuntime.

End FraudService.

(* ===================================================================== *)
(** ** Specification-level definitions *)
(* ===================================================================== *)

(** What the specification says of the validators and the feature
    builders, written as plain functions of the record and the encoder, with
    no state and no control flow; the properties below compare the code
    with them. *)
Module Spec.
Import Py Preprocessing.

(** [v < 0] holds. *)
Definition negative (v : PyVal) : bool :=
  match v with
  | VInt z => z <? 0
  | VFloat f => PrimFloat.ltb f 0%float
  | _ => false
  end.

(** [v > 0] holds. *)
Definition strictly_positive (v : PyVal) : bool :=
  match v with
  | VBool b => b
  | VInt z => 0 <? z
  | VFloat f => PrimFloat.ltb 0%float f
  | _ => false
  end.

(** [v <= 0] holds. *)
Definition at_most_zero (v : PyVal) : bool :=
  match v with
  | VBool b => negb b
  | VInt z => z <=? 0
  | VFloat f => PrimFloat.leb f 0%float
  | _ => false
  end.

(** Some field of [fields] is missing from the record. *)
Definition missing (data : Dict) (fields : list string) : bool :=
  existsb (fun field => negb (has_field data field)) fields.

(** Some field of [fields] is present with a value that is [bad]. *)
Definition some_field (data : Dict) (bad : PyVal -> bool) (fields : list string) : bool :=
  existsb (fun field => match data !! field with Some v => bad v | None => false end) fields.

(** The conditions under which the online-payment validator is said to
    return false: a required field is missing, a numeric field is not a
    number, a numeric field is negative, or the type is not one of the five. *)
Definition online_rejected (data : Dict) : bool :=
  missing data required_fields_online
  || some_field data (fun v => negb (isinstance_int_float v)) numeric_fields_online
  || some_field data negative numeric_fields_online
  || some_field data (fun v => negb (in_strs v valid_types)) ["type"].

(** The conditions under which the credit-card validator is said to return
    false: a required field is missing, a numeric field is not a number,
    [amt] is not strictly positive, or a string field is not a string that
    is non-empty after trimming. *)
Definition card_rejected_as_claimed (data : Dict) : bool :=
  missing data required_fields_card
  || some_field data (fun v => negb (isinstance_int_float v)) numeric_fields_card
  || some_field data (fun v => negb (strictly_positive v)) ["amt"]
  || some_field data (fun v => negb (nonblank_str v)) string_fields.

(** The same with the test the code makes on [amt]: [amt <= 0]. *)
Definition card_rejected (data : Dict) : bool :=
  missing data required_fields_card
  || some_field data (fun v => negb (isinstance_int_float v)) numeric_fields_card
  || some_field data at_most_zero ["amt"]
  || some_field data (fun v => negb (nonblank_str v)) string_fields.

(** The built-in code of a type name, 0 for a name outside the mapping. *)
Definition builtin_code (ty : string) : Z := default 0 (fallback_mapping !! ty).

(** The encoding policy as the code has it: a fitted encoder's code, the
    built-in code when its transform raises; the entry of a non-empty dict,
    the integer 0 when the dict has no such key; the built-in code when the
    encoder is [None] or an empty dict. *)
Definition type_code (encoder : Encoder) (ty : string) : EncEntry :=
  match encoder with
  | EncFitted t =>
      match t (VStr ty) with
      | Ok z => EInt z
      | Raise _ => EInt (builtin_code ty)
      end
  | EncDict d =>
      if bool_decide (size d ≠ 0%nat) then default (EInt 0) (d !! ty)
      else EInt (builtin_code ty)
  | EncNone => EInt (builtin_code ty)
  end.

(** The policy as claimed: a plain map is not consulted. *)
Definition type_code_as_claimed (encoder : Encoder) (ty : string) : EncEntry :=
  match encoder with
  | EncFitted t =>
      match t (VStr ty) with
      | Ok z => EInt z
      | Raise _ => EInt (builtin_code ty)
      end
  | EncDict _ => EInt (builtin_code ty)
  | EncNone => EInt (builtin_code ty)
  end.

(** The value of the list expression
    [[step, amount, int(type_encoded), oldbalanceOrg - newbalanceOrig + amount,
      newbalanceDest - oldbalanceDest - amount]]. *)
Definition online_vector (step amount oldOrg newOrig oldDest newDest : PyVal)
    (type_encoded : EncEntry) : Outcome (list PyVal) :=
  diffOrig ← (d ← py_sub oldOrg newOrig; py_add d amount);
  diffDest ← (d ← py_sub newDest oldDest; py_sub d amount);
  code ← py_int type_encoded;
  Ok [step; amount; VInt code; diffOrig; diffDest].

(** [[float(data[f]) for f in fields]] *)
Fixpoint floats_of (rt : Runtime) (data : Dict) (fields : list string) : Outcome (list PyVal) :=
  match fields with
  | [] => Ok []
  | field :: rest =>
      v ← getitem data field;
      x ← py_float rt v;
      xs ← floats_of rt data rest;
      Ok (VFloat x :: xs)
  end.

(** The feature of one categorical field under an encoder map: the code
    its fitted encoder gives to the stringified value, 0 when the transform
    raises, 0 when the map has no encoder for the field. *)
Definition field_code (rt : Runtime) (d : gmap string EncEntry) (data : Dict)
    (feature : string) : PyVal :=
  match d !! feature, data !! feature with
  | Some encoder, Some v =>
      match entry_transform encoder (VStr (py_str rt v)) with
      | Ok z => VInt z
      | Raise _ => VInt 0
      end
  | _, _ => VInt 0
  end.

(** The feature of one categorical field in the degraded mode:
    [abs(hash(str(v).strip().lower())) % 1000]. *)
Definition hash_code (rt : Runtime) (data : Dict) (feature : string) : PyVal :=
  match data !! feature with
  | Some v => VInt (Z.abs (rt_hash rt (lower (strip (py_str rt v)))) `mod` 1000)
  | None => VInt 0
  end.

(** The encoder map is consulted when it is a dict that is not empty. *)
Definition categorical_code (rt : Runtime) (encoder : Encoder) (data : Dict)
    : string -> PyVal :=
  match encoder with
  | EncDict d => if bool_decide (size d ≠ 0%nat) then field_code rt d data
                 else hash_code rt data
  | _ => hash_code rt data
  end.

(** The credit-card feature vector: six floats, then five codes. *)
Definition card_vector (rt : Runtime) (data : Dict) (encoder : Encoder)
    : Outcome (list PyVal) :=
  nums ← floats_of rt data numerical_features;
  Ok (nums ++ map (categorical_code rt encoder data) categorical_features)%list.

End Spec.

(* ===================================================================== *)
(** ** Effects on the arguments *)
(* ===================================================================== *)

(** What a call may and may not do to the objects it is given. *)
Module Effects.
Import Py Preprocessing.

(** Two frames hold the same record and the same encoder. *)
Definition same_args (a b : Frame) : Prop :=
  fr_data a = fr_data b /\ fr_encoder a = fr_encoder b.

(** A computation that leaves the record and the encoder as they were and
    whose outcome depends on nothing else (the log it appends to is not
    read back). *)
Definition readonly {A} (m : M Frame A) : Prop :=
  forall fr, same_args (m fr).2 fr
             /\ forall fr', same_args fr fr' -> (m fr').1 = (m fr).1.

(** The frame with another log. *)
Definition set_log (fr : Frame) (log : list LogRecord) : Frame :=
  {| fr_data := fr_data fr; fr_encoder := fr_encoder fr; fr_log := log |}.

End Effects.

(* ===================================================================== *)
(** ** Concrete inputs *)
(* ===================================================================== *)

Module Examples.
Import Py Preprocessing Schemas ModelLoader FraudService.

(** A process whose string hash is the length of the string. *)
Definition rt0 : Runtime :=
  {| rt_hash := fun s => Z.of_nat (String.length s);
     rt_float_repr := fun _ => "<float>";
     rt_list_repr := fun _ => "<list>";
     rt_parse_float := fun _ => Raise (ValueError "could not convert string to float");
     rt_http_str := fun c d => pretty c +:+ ": " +:+ d |}.

(** The example record of [OnlinePaymentInput]. *)
Definition payment : OnlinePaymentInput :=
  {| step := 1; type := "PAYMENT"; amount := 9839.64;
     oldbalanceOrg := 170136.0; newbalanceOrig := 160296.36;
     oldbalanceDest := 0.0; newbalanceDest := 0.0 |}.

(** The example record of [CreditCardInput]. *)
Definition card : CreditCardInput :=
  {| merchant := "fraud_Rippin, Kub and Mann"; category := "misc_net"; amt := 4.97;
     city := "Malton"; state := "OH"; lat := 39.9459; long := (-82.1661);
     city_pop := 35; job := "Psychologist, counselling";
     merch_lat := 39.9459; merch_long := (-82.1661) |}.

(** The example card record with [amt] replaced by a NaN. *)
Definition nan_card : Dict := <["amt" := VFloat PrimFloat.nan]> (card_dict card).

Definition frame (data : Dict) (encoder : Encoder) : Frame :=
  {| fr_data := data; fr_encoder := encoder; fr_log := [] |}.

(** A fitted encoder that knows no value at all. *)
Definition unfitted : Transformer :=
  fun _ => Raise (ValueError "y contains previously unseen labels").

(** The example payment with the sender's old balance given as an [int]
    too large for a [float]. *)
Definition big_payment : Dict :=
  <["oldbalanceOrg" := VInt (2 ^ 1024)]> (online_dict payment).

(** A plain map used as encoder that gives PAYMENT the code 7. *)
Definition payment_map : Encoder := EncDict {[ "PAYMENT" := EInt 7 ]}.

(** The example card with a population too large for a [float]. *)
Definition big_card : Dict := <["city_pop" := VInt (2 ^ 1024)]> (card_dict card).

(** An encoder map whose merchant encoder knows no merchant. *)
Definition merchant_unseen : Encoder := EncDict {[ "merchant" := EFitted unfitted ]}.

(** An encoder map with an encoder for the category only. *)
Definition category_only : Encoder := EncDict {[ "category" := EFitted (fun _ => Ok 3) ]}.

(** The six numeric features of the example card. *)
Definition card_floats : list PyVal :=
  [VFloat 4.97; VFloat 39.9459; VFloat (-82.1661); VFloat 35; VFloat 39.9459;
   VFloat (-82.1661)].

(** The example payment with a type outside the enumeration. *)
Definition refund : OnlinePaymentInput :=
  {| step := 1; type := "REFUND"; amount := 9839.64;
     oldbalanceOrg := 170136.0; newbalanceOrig := 160296.36;
     oldbalanceDest := 0.0; newbalanceDest := 0.0 |}.

(** An estimator fit on [width] columns that flags nothing. *)
Definition estimator (width : Z) : Estimator :=
  {| n_features_in_ := width;
     est_predict := fun rows => Ok (map (fun _ => VInt 0) rows);
     est_predict_proba := None |}.

(** A process in which [domain] was loaded with [model] and no encoder. *)
Definition world_with (domain : string) (model : Estimator) : World :=
  {| w_loader := {| models := {[ domain := model ]};
                    label_encoders := {[ domain := EncNone ]};
                    loaded_models := {[ domain := true ]} |};
     w_log := [];
     w_trace := [] |}.

(** A process right after [MultiModelLoader()]. *)
Definition fresh : World := {| w_loader := init; w_log := []; w_trace := [] |}.

(** No artifact exists. *)
Definition no_files : FileSystem :=
  {| fs_exists := fun _ => false;
     fs_joblib_model := fun _ => Raise (OSError "No such file or directory");
     fs_pickle_model := fun _ => Raise (OSError "No such file or directory");
     fs_joblib_encoder := fun _ => Raise (OSError "No such file or directory") |}.

(** Every path exists and nothing deserializes. *)
Definition corrupt_files : FileSystem :=
  {| fs_exists := fun _ => true;
     fs_joblib_model := fun _ => Raise (ValueError "invalid load key");
     fs_pickle_model := fun _ => Raise (ValueError "invalid load key");
     fs_joblib_encoder := fun _ => Raise (ValueError "invalid load key") |}.

(** Only the model artifact exists, and it holds a five-column estimator. *)
Definition model_only : FileSystem :=
  {| fs_exists := fun p => String.eqb p "online_payment.pkl";
     fs_joblib_model := fun _ => Ok (estimator 5);
     fs_pickle_model := fun _ => Ok (estimator 5);
     fs_joblib_encoder := fun _ => Raise (OSError "No such file or directory") |}.

End Examples.

(* ===================================================================== *)
(** ** Properties *)
(* ===================================================================== *)

Import Py Preprocessing Schemas ModelLoader FraudService.
Import Spec Effects Examples.
Import Floats.FloatAxioms.

(** *** Order of binary64 values *)

Lemma SFcompare_antisym x y : SFcompare y x = option_map CompOpp (SFcompare x y).
Proof.
  destruct x as [sx|sx| |sx mx ex], y as [sy|sy| |sy my ey]; simpl;
    try reflexivity;
    try (destruct sx; reflexivity); try (destruct sy; reflexivity);
    try (destruct sx, sy; reflexivity).
  destruct sx, sy; simpl; try reflexivity;
    rewrite (Z.compare_antisym ex ey);
    destruct (Z.compare ex ey); simpl; try reflexivity;
    change (Pos.compare_cont Eq my mx) with (Pos.compare my mx);
    change (Pos.compare_cont Eq mx my) with (Pos.compare mx my);
    rewrite (Pos.compare_antisym mx my); destruct (Pos.compare mx my); reflexivity.
Qed.

Lemma SFcompare_lt_trans x y z :
  SFcompare x y = Some Lt -> SFcompare y z = Some Lt -> SFcompare x z = Some Lt.
Proof.
  destruct x as [sx|sx| |sx mx ex], y as [sy|sy| |sy my ey], z as [sz|sz| |sz mz ez];
    simpl; try discriminate;
    try (destruct sx; simpl; try discriminate; try reflexivity);
    try (destruct sy; simpl; try discriminate; try reflexivity);
    try (destruct sz; simpl; try discriminate; try reflexivity);
    try (intros; reflexivity); try (intros; discriminate).
  all: change (Pos.compare_cont Eq ?a ?b) with (Pos.compare a b).
  all: destruct (Z.compare_spec ex ey), (Z.compare_spec ey ez), (Z.compare_spec ex ez);
    try discriminate; try lia; try (intros; reflexivity).
  all: subst.
  all: destruct (Pos.compare_spec mx my), (Pos.compare_spec my mz),
    (Pos.compare_spec mx mz); simpl; try discriminate; try lia; try (intros; reflexivity).
Qed.

Lemma SFcompare_eq_r x y z :
  SFcompare y z = Some Eq -> SFcompare x y = SFcompare x z.
Proof.
  destruct x as [sx|sx| |sx mx ex], y as [sy|sy| |sy my ey], z as [sz|sz| |sz mz ez];
    simpl; try discriminate; try reflexivity;
    try (destruct sy; simpl; try discriminate; try reflexivity);
    try (destruct sz; simpl; try discriminate; try reflexivity);
    try (intros; reflexivity); try (intros; discriminate).
  all: change (Pos.compare_cont Eq ?a ?b) with (Pos.compare a b).
  all: destruct (Z.compare_spec ey ez); try discriminate.
  all: destruct (Pos.compare_spec my mz); simpl; try discriminate.
  all: subst; reflexivity.
Qed.

(** [x <= y] excludes [y < x]. *)
Lemma leb_not_ltb (x y : float) : PrimFloat.leb x y = true -> PrimFloat.ltb y x = false.
Proof.
  rewrite leb_spec, ltb_spec. unfold SFleb, SFltb.
  rewrite (SFcompare_antisym (Prim2SF x) (Prim2SF y)).
  destruct (SFcompare (Prim2SF x) (Prim2SF y)) as [[]|]; simpl; congruence.
Qed.

(** [a < x] and [x <= b] give [a < b]. *)
Lemma ltb_leb_trans (a x b : float) :
  PrimFloat.ltb a x = true -> PrimFloat.leb x b = true -> PrimFloat.ltb a b = true.
Proof.
  rewrite !ltb_spec, leb_spec. unfold SFleb, SFltb.
  destruct (SFcompare (Prim2SF a) (Prim2SF x)) as [[]|] eqn:Hax; try discriminate.
  destruct (SFcompare (Prim2SF x) (Prim2SF b)) as [[]|] eqn:Hxb; try discriminate; intros _ _.
  - by rewrite <- (SFcompare_eq_r _ _ _ Hxb), Hax.
  - by rewrite (SFcompare_lt_trans _ _ _ Hax Hxb).
Qed.

Lemma SFcompare_None x y :
  SFcompare x y = None -> x = S754_nan \/ y = S754_nan.
Proof. destruct x, y; simpl; try discriminate; auto. Qed.

Lemma SFcompare_nan_r x : SFcompare x S754_nan = None.
Proof. by destruct x. Qed.

Lemma SFcompare_nan_l y : SFcompare S754_nan y = None.
Proof. by destruct y. Qed.

(** Two values that are each comparable with something are ordered one way
    or the other. *)
Lemma ltb_false_leb (c c' x y : float) :
  PrimFloat.leb c x = true -> PrimFloat.leb y c' = true ->
  PrimFloat.ltb y x = false -> PrimFloat.leb x y = true.
Proof.
  rewrite !leb_spec, ltb_spec. unfold SFleb, SFltb.
  intros Hcx Hyc.
  rewrite (SFcompare_antisym (Prim2SF x) (Prim2SF y)).
  destruct (SFcompare (Prim2SF x) (Prim2SF y)) as [[]|] eqn:Hxy; simpl; try congruence.
  intros _. apply SFcompare_None in Hxy as [Hx | Hy].
  - rewrite Hx, SFcompare_nan_r in Hcx. discriminate.
  - rewrite Hy, SFcompare_nan_l in Hyc. discriminate.
Qed.

(** *** Risk classifier *)

(** C2, as stated, fails at the boundary 0.4: the comparison is strict, so
    a probability of exactly 0.4 falls in the lowest bucket and is not
    ("medium", "MEDIUM"). *)
Lemma assess_risk_at_0_4_not_medium :
  _assess_risk 0.4%float <> ("medium", "MEDIUM").
Proof. vm_compute. discriminate. Qed.

(** C2, amended: on every probability in [0,1] [_assess_risk] returns
    ("high","HIGH") when probability > 0.8, ("medium","MEDIUM") when
    0.4 < probability <= 0.8 and ("high","LOW") when probability <= 0.4, and
    one of the three cases applies; exactly 0.8 gives ("medium","MEDIUM"),
    exactly 0.4 gives ("high","LOW"), exactly 0.0 gives ("high","LOW") and
    exactly 1.0 gives ("high","HIGH"). *)
Theorem assess_risk_tiers (p : float) :
  PrimFloat.leb 0%float p = true ->
  PrimFloat.leb p 1%float = true ->
  (PrimFloat.ltb 0.8%float p = true -> _assess_risk p = ("high", "HIGH"))
  /\ (PrimFloat.ltb 0.4%float p = true -> PrimFloat.leb p 0.8%float = true ->
      _assess_risk p = ("medium", "MEDIUM"))
  /\ (PrimFloat.leb p 0.4%float = true -> _assess_risk p = ("high", "LOW"))
  /\ (PrimFloat.ltb 0.8%float p = true
      \/ (PrimFloat.ltb 0.4%float p = true /\ PrimFloat.leb p 0.8%float = true)
      \/ PrimFloat.leb p 0.4%float = true)
  /\ _assess_risk 0.8%float = ("medium", "MEDIUM")
  /\ _assess_risk 0.4%float = ("high", "LOW")
  /\ _assess_risk 0%float = ("high", "LOW")
  /\ _assess_risk 1%float = ("high", "HIGH").
Proof.
  intros H0 H1. unfold _assess_risk.
  repeat split; try reflexivity.
  - by intros ->.
  - intros Hlo Hhi. rewrite (leb_not_ltb _ _ Hhi), Hlo.
    by destruct (PrimFloat.ltb 0.6%float p).
  - intros Hle.
    assert (PrimFloat.ltb 0.8%float p = false) as ->.
    { destruct (PrimFloat.ltb 0.8%float p) eqn:E; [|done].
      by pose proof (ltb_leb_trans _ _ _ E Hle). }
    assert (PrimFloat.ltb 0.6%float p = false) as ->.
    { destruct (PrimFloat.ltb 0.6%float p) eqn:E; [|done].
      by pose proof (ltb_leb_trans _ _ _ E Hle). }
    by rewrite (leb_not_ltb _ _ Hle).
  - destruct (PrimFloat.ltb 0.8%float p) eqn:E8; [by left|right].
    destruct (PrimFloat.ltb 0.4%float p) eqn:E4.
    + left. split; [done|].
      apply (ltb_false_leb 0%float 1%float); [done|reflexivity|done].
    + right. apply (ltb_false_leb 0%float 1%float); [done|reflexivity|done].
Qed.

(** The tiers at the probability 0.5. *)
Lemma assess_risk_tiers_witness :
  _assess_risk 0.5%float = ("medium", "MEDIUM").
Proof.
  apply (assess_risk_tiers 0.5%float); reflexivity.
Defined.

(** *** Input validators *)

Lemma all_fields_forallb (check : string -> Outcome bool) (p : string -> bool) l :
  (forall x, x ∈ l -> check x = Ok (p x)) -> all_fields check l = Ok (forallb p l).
Proof.
  induction l as [|x l IH]; intros H; simpl; [done|].
  rewrite (H x) by set_solver. simpl.
  destruct (p x); [|done]. apply IH. intros y Hy. apply H. set_solver.
Qed.

Lemma missing_forallb data l :
  Spec.missing data l = negb (forallb (has_field data) l).
Proof.
  unfold Spec.missing. induction l as [|x l IH]; simpl; [done|].
  rewrite IH. by destruct (has_field data x).
Qed.

Lemma has_field_lookup (data : Dict) field :
  has_field data field = true -> exists v, data !! field = Some v.
Proof.
  unfold has_field. intros H%bool_decide_eq_true. by destruct H as [v Hv]; exists v.
Qed.

Lemma check_nonnegative v :
  (if negb (isinstance_int_float v) then Ok false
   else negative ← lt_zero v; Ok (negb negative))
  = Ok (isinstance_int_float v && negb (Spec.negative v)).
Proof. destruct v as [|[]| | | |]; reflexivity. Qed.

Ltac lookups H :=
  repeat match type of H with
         | (_ && _) = true => let H1 := fresh "Hf" in
                              apply andb_prop in H as [H1 H];
                              apply has_field_lookup in H1 as [? H1]
         end.

Lemma validate_online_spec (data : Dict) :
  validate_online_payment_data data = Ok (negb (Spec.online_rejected data)).
Proof.
  unfold validate_online_payment_data, Spec.online_rejected.
  rewrite missing_forallb.
  rewrite (all_fields_forallb (fun field => Ok (has_field data field)) (has_field data))
    by (intros; reflexivity).
  cbn [mbind Outcome_bind].
  destruct (forallb (has_field data) required_fields_online) eqn:Hp; [|reflexivity].
  cbn [negb orb].
  cbn [forallb required_fields_online] in Hp. lookups Hp. clear Hp.
  unfold Spec.some_field, numeric_fields_online, getitem.
  cbn [existsb all_fields].
  repeat match goal with H : data !! _ = Some _ |- _ => rewrite H; clear H end.
  cbn [mbind Outcome_bind].
  rewrite !check_nonnegative.
  cbn [mbind Outcome_bind].
  repeat match goal with
         | |- context [isinstance_int_float ?v] => destruct (isinstance_int_float v); cbn
         | |- context [Spec.negative ?v] => destruct (Spec.negative v); cbn
         | |- context [in_strs ?v ?l] => destruct (in_strs v l); cbn
         end; reflexivity.
Qed.

Lemma check_nonblank v :
  (if negb (isinstance_str v) then Ok false else Ok (nonblank_str v))
  = Ok (nonblank_str v).
Proof. by destruct v. Qed.

Lemma le_zero_number v :
  isinstance_int_float v = true -> le_zero v = Ok (Spec.at_most_zero v).
Proof. by destruct v as [|[]| | | |]. Qed.

Lemma validate_card_spec (data : Dict) :
  validate_credit_card_data data = Ok (negb (Spec.card_rejected data)).
Proof.
  unfold validate_credit_card_data, Spec.card_rejected.
  rewrite missing_forallb.
  rewrite (all_fields_forallb (fun field => Ok (has_field data field)) (has_field data))
    by (intros; reflexivity).
  cbn [mbind Outcome_bind].
  destruct (forallb (has_field data) required_fields_card) eqn:Hp; [|reflexivity].
  cbn [negb orb].
  cbn [forallb required_fields_card] in Hp. lookups Hp. clear Hp.
  unfold Spec.some_field, numeric_fields_card, string_fields, getitem.
  cbn [existsb all_fields].
  repeat match goal with H : data !! _ = Some _ |- _ => rewrite H; clear H end.
  cbn [mbind Outcome_bind].
  rewrite !check_nonblank.
  cbn [mbind Outcome_bind].
  repeat match goal with
         | |- context [isinstance_int_float ?v] =>
             let E := fresh "E" in destruct (isinstance_int_float v) eqn:E; cbn;
             try rewrite (le_zero_number _ E); cbn
         end; try reflexivity.
  repeat match goal with
         | |- context [Spec.at_most_zero ?v] => destruct (Spec.at_most_zero v); cbn
         | |- context [nonblank_str ?v] => destruct (nonblank_str v); cbn
         end; reflexivity.
Qed.

(** C5, as stated, fails for a credit-card record whose [amt] is a NaN: a
    NaN is a [float] and is not strictly positive, yet the validator
    returns true, because [nan <= 0] is false. *)
Lemma validate_credit_card_accepts_nan_amt :
  Spec.card_rejected_as_claimed Examples.nan_card = true
  /\ validate_credit_card_data Examples.nan_card = Ok true.
Proof. split; reflexivity. Qed.

(** C5, amended: for every input mapping both validators return without
    raising; [validate_online_payment_data] returns false exactly when a
    required field is missing, a numeric field is not an [int] or [float],
    a numeric field is negative, or [type] is outside the five names;
    [validate_credit_card_data] returns false exactly when a required field
    is missing, a numeric field is not an [int] or [float], [amt <= 0]
    holds, or a string field is not a [str] that is non-empty after
    trimming; they return true otherwise. *)
Theorem validators_total_and_exact (data : Dict) :
  validate_online_payment_data data = Ok (negb (Spec.online_rejected data))
  /\ validate_credit_card_data data = Ok (negb (Spec.card_rejected data)).
Proof. split; [apply validate_online_spec | apply validate_card_spec]. Qed.

(** *** Effects of the feature builders *)

Lemma same_args_refl fr : same_args fr fr.
Proof. by split. Qed.

Lemma same_args_trans a b c : same_args a b -> same_args b c -> same_args a c.
Proof. intros [] []. split; congruence. Qed.

Lemma same_args_sym a b : same_args a b -> same_args b a.
Proof. intros []. by split. Qed.

Lemma readonly_ret {A} (a : A) : readonly (mret a : M Frame A).
Proof. intros fr. split; [apply same_args_refl | done]. Qed.

Lemma readonly_lift {A} (o : Outcome A) : readonly (lift o : M Frame A).
Proof. intros fr. split; [apply same_args_refl | done]. Qed.

Lemma readonly_bind {A B} (m : M Frame A) (k : A -> M Frame B) :
  readonly m -> (forall a, readonly (k a)) -> readonly (m ≫= k).
Proof.
  intros Hm Hk fr. unfold mbind, M_bind.
  destruct (Hm fr) as [Hs Ho].
  destruct (m fr) as [[a|e] fr1] eqn:E; simpl in *.
  - destruct (Hk a fr1) as [Hs1 Ho1]. split.
    + eapply same_args_trans; eauto.
    + intros fr' Hfr'. specialize (Ho fr' Hfr').
      destruct (Hm fr') as [Hs' _].
      destruct (m fr') as [o' fr1']; simpl in *; subst o'.
      apply Ho1.
      eapply same_args_trans; [apply Hs|].
      eapply same_args_trans; [apply Hfr'|]. by apply same_args_sym.
  - split; [done|].
    intros fr' Hfr'. specialize (Ho fr' Hfr').
    destruct (m fr') as [o' fr1']; simpl in *. by subst o'.
Qed.

Lemma readonly_try_except {A} (m : M Frame A) (h : Exn -> M Frame A) :
  readonly m -> (forall e, readonly (h e)) -> readonly (try_except m h).
Proof.
  intros Hm Hh fr. unfold try_except.
  destruct (Hm fr) as [Hs Ho].
  destruct (m fr) as [[a|e] fr1] eqn:E; simpl in *.
  - split; [done|].
    intros fr' Hfr'. specialize (Ho fr' Hfr').
    destruct (m fr') as [o' fr1']; simpl in *. by subst o'.
  - destruct (Hh e fr1) as [Hs1 Ho1]. split.
    + eapply same_args_trans; eauto.
    + intros fr' Hfr'. specialize (Ho fr' Hfr').
      destruct (Hm fr') as [Hs' _].
      destruct (m fr') as [o' fr1']; simpl in *; subst o'.
      apply Ho1.
      eapply same_args_trans; [apply Hs|].
      eapply same_args_trans; [apply Hfr'|]. by apply same_args_sym.
Qed.

Lemma readonly_encoder : readonly (gets fr_encoder).
Proof.
  intros fr. split; [apply same_args_refl|].
  intros fr' [_ He]. unfold gets; simpl. by rewrite He.
Qed.

Lemma readonly_data_item k : readonly (data_item k).
Proof.
  intros fr. split; [apply same_args_refl|].
  intros fr' [Hd _]. unfold data_item; simpl. by rewrite Hd.
Qed.

Lemma readonly_logger_log lvl msg : readonly (Preprocessing.logger_log lvl msg).
Proof. intros fr. split; [by split | done]. Qed.

Lemma readonly_for_fold {A B} (l : list A) (body : B -> A -> M Frame B) :
  (forall acc x, readonly (body acc x)) -> forall acc, readonly (for_fold l acc body).
Proof.
  intros Hbody. induction l as [|x l IH]; intros acc; simpl.
  - apply readonly_ret.
  - apply readonly_bind; [apply Hbody | apply IH].
Qed.

Ltac readonly_step :=
  first
    [ apply readonly_ret
    | apply readonly_lift
    | apply readonly_encoder
    | apply readonly_data_item
    | apply readonly_logger_log
    | apply readonly_bind; [|intros ?]
    | apply readonly_try_except; [|intros ?]
    | apply readonly_for_fold; intros ? ?
    | match goal with
      | |- readonly (match ?x with _ => _ end) => destruct x
      end ].

Lemma fallback_type_readonly : readonly fallback_type.
Proof. unfold fallback_type. repeat readonly_step. Qed.

Lemma preprocess_online_payment_readonly rt :
  readonly (preprocess_online_payment_data rt).
Proof.
  unfold preprocess_online_payment_data, encode_type.
  repeat first [apply fallback_type_readonly | readonly_step].
Qed.

Lemma preprocess_credit_card_readonly rt :
  readonly (preprocess_credit_card_data rt).
Proof.
  unfold preprocess_credit_card_data, encode_with_map, encode_with_hash.
  repeat readonly_step.
Qed.

(** C9: for every record and every encoder, a second call of either
    builder on the objects the first call leaves behind has the same
    outcome (the same feature vector, or the same exception), and after
    each call the record and the encoder are what they were before. *)
Theorem builders_repeatable (rt : Runtime) (fr : Frame) :
  (let first := preprocess_online_payment_data rt fr in
   let second := preprocess_online_payment_data rt first.2 in
   second.1 = first.1
   /\ fr_data first.2 = fr_data fr /\ fr_encoder first.2 = fr_encoder fr
   /\ fr_data second.2 = fr_data fr /\ fr_encoder second.2 = fr_encoder fr)
  /\ (let first := preprocess_credit_card_data rt fr in
      let second := preprocess_credit_card_data rt first.2 in
      second.1 = first.1
      /\ fr_data first.2 = fr_data fr /\ fr_encoder first.2 = fr_encoder fr
      /\ fr_data second.2 = fr_data fr /\ fr_encoder second.2 = fr_encoder fr).
Proof.
  assert (forall m : M Frame (list PyVal), readonly m ->
            let first := m fr in let second := m first.2 in
            second.1 = first.1
            /\ fr_data first.2 = fr_data fr /\ fr_encoder first.2 = fr_encoder fr
            /\ fr_data second.2 = fr_data fr /\ fr_encoder second.2 = fr_encoder fr) as H.
  { intros m Hm. cbv zeta.
    destruct (Hm fr) as [[Hd He] Ho].
    destruct (Hm (m fr).2) as [[Hd' He'] _].
    repeat split; try congruence.
    apply Ho. split; congruence. }
  split; apply H;
    [apply preprocess_online_payment_readonly | apply preprocess_credit_card_readonly].
Qed.


(** *** Running the builders *)

Lemma getitem_Some {V} (d : gmap string V) k v : d !! k = Some v -> getitem d k = Ok v.
Proof. unfold getitem. by intros ->. Qed.

Lemma getitem_None {V} (d : gmap string V) k : d !! k = None -> getitem d k = Raise (KeyError k).
Proof. unfold getitem. by intros ->. Qed.

Ltac run :=
  repeat
    (unfold mbind, M_bind, Outcome_bind, mret, M_ret, Outcome_ret, try_except, lift,
       raise, gets, modify, data_item, Preprocessing.logger_log;
     cbn [dict_get fst snd fr_data fr_encoder fr_log is_ValueError];
     repeat match goal with
       | H : ?d !! ?k = Some ?v |- context [getitem ?d ?k] =>
           rewrite (getitem_Some d k v H)
       end).

Lemma fallback_type_run fr ty :
  fr_data fr !! "type" = Some (VStr ty) ->
  fallback_type fr = (Ok (EInt (builtin_code ty)), fr).
Proof. intros H. unfold fallback_type. by run. Qed.

Lemma encode_type_run rt fr ty :
  fr_data fr !! "type" = Some (VStr ty) ->
  exists log, encode_type rt fr
              = (Ok (type_code (fr_encoder fr) ty),
                 {| fr_data := fr_data fr; fr_encoder := fr_encoder fr; fr_log := log |}).
Proof.
  intros H. destruct fr as [data enc log]. simpl in H.
  unfold encode_type, type_code. run.
  destruct enc as [|t|d]; run.
  - rewrite (fallback_type_run _ ty) by done. by eexists.
  - destruct (t (VStr ty)) as [z|e]; run; [by eexists|].
    destruct e; run;
      rewrite (fallback_type_run _ ty) by done; by eexists.
  - destruct (bool_decide (size d ≠ 0%nat)); run.
    + by eexists.
    + rewrite (fallback_type_run _ ty) by done. by eexists.
Qed.

Lemma preprocess_online_payment_run rt fr step ty amount oldOrg newOrig oldDest newDest :
  fr_data fr !! "step" = Some step ->
  fr_data fr !! "type" = Some (VStr ty) ->
  fr_data fr !! "amount" = Some amount ->
  fr_data fr !! "oldbalanceOrg" = Some oldOrg ->
  fr_data fr !! "newbalanceOrig" = Some newOrig ->
  fr_data fr !! "oldbalanceDest" = Some oldDest ->
  fr_data fr !! "newbalanceDest" = Some newDest ->
  (preprocess_online_payment_data rt fr).1
  = online_vector step amount oldOrg newOrig oldDest newDest (type_code (fr_encoder fr) ty).
Proof.
  intros Hs Ht Ha Hoo Hno Hod Hnd.
  unfold preprocess_online_payment_data, online_vector.
  destruct (encode_type_run rt fr ty Ht) as [log Henc].
  unfold mbind at 1, M_bind at 1. rewrite Henc. run.
  destruct (py_sub oldOrg newOrig) as [d1|e]; run; [|done].
  destruct (py_add d1 amount) as [dO|e]; run; [|done].
  destruct (py_sub newDest oldDest) as [d2|e]; run; [|done].
  destruct (py_sub d2 amount) as [dD|e]; run; [|done].
  by destruct (py_int (type_code (fr_encoder fr) ty)).
Qed.


Lemma numeric_loop_run rt fr l acc :
  for_fold l acc
    (fun features feature =>
       v ← data_item feature;
       f ← lift (py_float rt v);
       mret (append features (VFloat f))) fr
  = (match floats_of rt (fr_data fr) l with
     | Ok nums => Ok (acc ++ nums)%list
     | Raise e => Raise e
     end, fr).
Proof.
  revert acc. induction l as [|x l IH]; intros acc; simpl.
  - by rewrite app_nil_r.
  - unfold mbind at 1, M_bind at 1. unfold mbind at 1, M_bind at 1.
    unfold data_item at 1.
    destruct (getitem (fr_data fr) x) as [v|e]; [|done].
    cbn [mbind Outcome_bind]. unfold mbind at 1, M_bind at 1, lift at 1.
    destruct (py_float rt v) as [f|e]; [|done].
    cbn [mbind Outcome_bind mret M_ret]. rewrite IH.
    destruct (floats_of rt (fr_data fr) l); [|done].
    unfold append. cbn [mbind Outcome_bind]. by rewrite <- app_assoc.
Qed.

Lemma categorical_loop_run (body : list PyVal -> string -> M Frame (list PyVal))
    (code : Dict -> string -> PyVal) l :
  (forall acc x fr, exists log,
      body acc x fr = (Ok (append acc (code (fr_data fr) x)), set_log fr log)) ->
  forall acc fr, exists log,
    for_fold l acc body fr = (Ok (acc ++ map (code (fr_data fr)) l)%list, set_log fr log).
Proof.
  intros Hbody. induction l as [|x l IH]; intros acc fr; simpl.
  - exists (fr_log fr). rewrite app_nil_r. by destruct fr.
  - unfold mbind, M_bind.
    destruct (Hbody acc x fr) as [log1 ->].
    destruct (IH (append acc (code (fr_data fr) x)) (set_log fr log1)) as [log2 ->].
    exists log2. unfold append. by rewrite <- app_assoc.
Qed.

Lemma encode_with_map_run rt d acc x fr :
  exists log, encode_with_map rt d acc x fr
              = (Ok (append acc (field_code rt d (fr_data fr) x)), set_log fr log).
Proof.
  unfold encode_with_map, field_code, set_log.
  destruct (d !! x) as [encoder|]; [|run; by eexists].
  destruct (fr_data fr !! x) as [v|] eqn:Hv; run.
  - destruct (entry_transform encoder (VStr (py_str rt v))) as [z|e]; run; [by eexists|].
    destruct e; run; by eexists.
  - rewrite (getitem_None _ _ Hv). run. by eexists.
Qed.

Lemma encode_with_hash_run rt acc x fr :
  exists log, encode_with_hash rt acc x fr
              = (Ok (append acc (hash_code rt (fr_data fr) x)), set_log fr log).
Proof.
  unfold encode_with_hash, hash_code, set_log.
  destruct (fr_data fr !! x) as [v|] eqn:Hv; run.
  - exists (fr_log fr). by destruct fr.
  - rewrite (getitem_None _ _ Hv). run. by eexists.
Qed.

Lemma preprocess_credit_card_run rt fr :
  (preprocess_credit_card_data rt fr).1
  = card_vector rt (fr_data fr) (fr_encoder fr).
Proof.
  unfold preprocess_credit_card_data, card_vector.
  unfold mbind at 1, M_bind at 1. rewrite numeric_loop_run.
  destruct (floats_of rt (fr_data fr) numerical_features) as [nums|e]; [|done].
  cbn [app mbind Outcome_bind]. unfold mbind at 1, M_bind at 1, gets at 1.
  unfold categorical_code.
  destruct (fr_encoder fr) as [|t|d].
  - unfold mbind at 1, M_bind at 1. unfold Preprocessing.logger_log, modify.
    destruct (categorical_loop_run (encode_with_hash rt) (hash_code rt)
                categorical_features (encode_with_hash_run rt) nums
                (set_log fr (append (fr_log fr)
                   (WARNING, "Label encoders not available, using hash-based fallback"))))
      as [log H].
    unfold set_log in H at 1. by rewrite H.
  - unfold mbind at 1, M_bind at 1. unfold Preprocessing.logger_log, modify.
    destruct (categorical_loop_run (encode_with_hash rt) (hash_code rt)
                categorical_features (encode_with_hash_run rt) nums
                (set_log fr (append (fr_log fr)
                   (WARNING, "Label encoders not available, using hash-based fallback"))))
      as [log H].
    unfold set_log in H at 1. by rewrite H.
  - destruct (bool_decide (size d ≠ 0%nat)).
    + destruct (categorical_loop_run (encode_with_map rt d) (field_code rt d)
                  categorical_features (encode_with_map_run rt d) nums fr) as [log H].
      by rewrite H.
    + unfold mbind at 1, M_bind at 1. unfold Preprocessing.logger_log, modify.
      destruct (categorical_loop_run (encode_with_hash rt) (hash_code rt)
                  categorical_features (encode_with_hash_run rt) nums
                  (set_log fr (append (fr_log fr)
                     (WARNING, "Label encoders not available, using hash-based fallback"))))
        as [log H].
      unfold set_log in H at 1. by rewrite H.
Qed.

Lemma missing_false_lookup data l field :
  Spec.missing data l = false -> field ∈ l -> exists v, data !! field = Some v.
Proof.
  rewrite missing_forallb. intros H%negb_false_iff Hin.
  apply has_field_lookup. rewrite forallb_forall in H. apply H.
  by apply list_elem_of_In.
Qed.

Lemma some_field_false data bad l field v :
  Spec.some_field data bad l = false -> field ∈ l -> data !! field = Some v ->
  bad v = false.
Proof.
  unfold Spec.some_field. intros H Hin Hv.
  destruct (bad v) eqn:Hbad; [|done].
  rewrite <- H. symmetry. apply existsb_exists. exists field.
  split; [by apply list_elem_of_In | by rewrite Hv].
Qed.

Lemma valid_online_rejected data :
  validate_online_payment_data data = Ok true -> Spec.online_rejected data = false.
Proof. rewrite validate_online_spec. intros [= H]. by apply negb_true_iff in H. Qed.

Lemma valid_card_rejected data :
  validate_credit_card_data data = Ok true -> Spec.card_rejected data = false.
Proof. rewrite validate_card_spec. intros [= H]. by apply negb_true_iff in H. Qed.

(** A validated online-payment record has its seven fields, and its type
    is one of the five names. *)
Lemma valid_online_fields data :
  validate_online_payment_data data = Ok true ->
  exists step ty amount oldOrg newOrig oldDest newDest,
    data !! "step" = Some step /\ data !! "type" = Some (VStr ty)
    /\ data !! "amount" = Some amount
    /\ data !! "oldbalanceOrg" = Some oldOrg /\ data !! "newbalanceOrig" = Some newOrig
    /\ data !! "oldbalanceDest" = Some oldDest /\ data !! "newbalanceDest" = Some newDest
    /\ ty ∈ valid_types.
Proof.
  intros H%valid_online_rejected. unfold Spec.online_rejected in H.
  apply orb_false_iff in H as [H Hty]. apply orb_false_iff in H as [H _].
  apply orb_false_iff in H as [Hm _].
  destruct (missing_false_lookup _ _ "step" Hm) as [step Hstep]; [set_solver|].
  destruct (missing_false_lookup _ _ "type" Hm) as [tyv Htyv]; [set_solver|].
  destruct (missing_false_lookup _ _ "amount" Hm) as [amount Hamount]; [set_solver|].
  destruct (missing_false_lookup _ _ "oldbalanceOrg" Hm) as [oo Hoo]; [set_solver|].
  destruct (missing_false_lookup _ _ "newbalanceOrig" Hm) as [no Hno]; [set_solver|].
  destruct (missing_false_lookup _ _ "oldbalanceDest" Hm) as [od Hod]; [set_solver|].
  destruct (missing_false_lookup _ _ "newbalanceDest" Hm) as [nd Hnd]; [set_solver|].
  pose proof (some_field_false _ _ _ "type" tyv Hty ltac:(set_solver) Htyv) as Hin.
  apply negb_false_iff in Hin. destruct tyv as [| | | |ty|]; try discriminate.
  apply bool_decide_eq_true in Hin.
  exists step, ty, amount, oo, no, od, nd. by repeat split.
Qed.

(** A validated credit-card record holds a string under each categorical
    field. *)
Lemma valid_card_string data feature :
  validate_credit_card_data data = Ok true ->
  feature ∈ categorical_features ->
  exists s, data !! feature = Some (VStr s).
Proof.
  intros H%valid_card_rejected Hin. unfold Spec.card_rejected in H.
  apply orb_false_iff in H as [H Hstr]. apply orb_false_iff in H as [H _].
  apply orb_false_iff in H as [Hm _].
  destruct (missing_false_lookup _ _ feature Hm) as [v Hv].
  { unfold categorical_features in Hin. unfold required_fields_card.
    repeat (apply elem_of_cons in Hin as [->|Hin]; [set_solver|]). by apply elem_of_nil in Hin. }
  pose proof (some_field_false _ _ _ feature v Hstr Hin Hv) as Hnb.
  apply negb_false_iff in Hnb. destruct v; try discriminate. by eexists.
Qed.

Lemma floats_of_length rt data l nums :
  floats_of rt data l = Ok nums -> length nums = length l.
Proof.
  revert nums. induction l as [|x l IH]; intros nums; simpl.
  - by intros [= <-].
  - destruct (getitem data x) as [v|]; [|done]. cbn [mbind Outcome_bind].
    destruct (py_float rt v); [|done]. cbn [mbind Outcome_bind].
    destruct (floats_of rt data l) as [xs|]; [|done]. cbn [mbind Outcome_bind].
    intros [= <-]. simpl. by rewrite (IH xs).
Qed.

(** *** Online-payment feature builder *)

(** C1, as stated, fails on its own example: in binary64 arithmetic
    170136.0 - 160296.36 + 9839.64 is 19679.280000000013, which is not the
    [float] 19679.28; and a validated record whose balance is an [int] too
    large for a [float] makes the builder raise instead of returning. *)
Lemma example_vector_not_as_claimed :
  (preprocess_online_payment_data Examples.rt0
     (Examples.frame (online_dict Examples.payment) EncNone)).1
  <> Ok [VInt 1; VFloat 9839.64; VInt 0; VFloat 19679.28; VFloat (-9839.64)]
  /\ validate_online_payment_data big_payment = Ok true
  /\ (preprocess_online_payment_data Examples.rt0 (Examples.frame big_payment EncNone)).1
     = Raise (OverflowError "int too large to convert to float").
Proof.
  split; [|split; reflexivity].
  vm_compute. by intros [= H].
Qed.

(** C1, amended: for every online-payment record that passes validation
    the outcome of [preprocess_online_payment_data] is the value of the
    list expression [[step, amount, int(type_encoded),
    oldbalanceOrg - newbalanceOrig + amount,
    newbalanceDest - oldbalanceDest - amount]] under Python's arithmetic
    (the five elements in that order, or the exception the expression
    raises); the example record with the built-in fallback encoding yields
    [[1, 9839.64, 0, 19679.280000000013, -9839.64]]. *)
Theorem online_payment_features (rt : Runtime) (fr : Frame) :
  validate_online_payment_data (fr_data fr) = Ok true ->
  (exists step ty amount oldOrg newOrig oldDest newDest,
      fr_data fr !! "step" = Some step /\ fr_data fr !! "type" = Some (VStr ty)
      /\ fr_data fr !! "amount" = Some amount
      /\ fr_data fr !! "oldbalanceOrg" = Some oldOrg
      /\ fr_data fr !! "newbalanceOrig" = Some newOrig
      /\ fr_data fr !! "oldbalanceDest" = Some oldDest
      /\ fr_data fr !! "newbalanceDest" = Some newDest
      /\ (preprocess_online_payment_data rt fr).1
         = online_vector step amount oldOrg newOrig oldDest newDest
             (type_code (fr_encoder fr) ty))
  /\ (preprocess_online_payment_data rt
        (Examples.frame (online_dict Examples.payment) EncNone)).1
     = Ok [VInt 1; VFloat 9839.64; VInt 0; VFloat 19679.280000000013; VFloat (-9839.64)].
Proof.
  intros Hvalid. split; [|reflexivity].
  destruct (valid_online_fields _ Hvalid)
    as (step & ty & amount & oo & no & od & nd & Hs & Ht & Ha & Hoo & Hno & Hod & Hnd & _).
  exists step, ty, amount, oo, no, od, nd.
  repeat (split; [done|]).
  by apply preprocess_online_payment_run.
Qed.

(** The example record under the built-in fallback encoding. *)
Lemma online_payment_features_witness :
  validate_online_payment_data (online_dict Examples.payment) = Ok true
  /\ (preprocess_online_payment_data Examples.rt0
        (Examples.frame (online_dict Examples.payment) EncNone)).1
     = Ok [VInt 1; VFloat 9839.64; VInt 0; VFloat 19679.280000000013; VFloat (-9839.64)].
Proof.
  split; [reflexivity|].
  apply (online_payment_features Examples.rt0
           (Examples.frame (online_dict Examples.payment) EncNone)).
  reflexivity.
Defined.

(** C7, as stated, fails when the encoder is a plain map: the map's own
    entry is used, not the built-in mapping. *)
Lemma plain_map_is_consulted :
  (encode_type Examples.rt0 (Examples.frame (online_dict Examples.payment) payment_map)).1
  = Ok (EInt 7)
  /\ type_code_as_claimed payment_map "PAYMENT" = EInt 0.
Proof. split; reflexivity. Qed.

(** C7, amended: for every validated online-payment record the type is
    encoded as follows: an encoder with a transform is used and, when the
    transform raises, the built-in mapping PAYMENT:0, TRANSFER:1,
    CASH_OUT:2, DEBIT:3, CASH_IN:4 is used instead; a non-empty plain map is
    looked up itself, with 0 for a type it does not hold; with no encoder
    or an empty map the built-in mapping is applied; and the third feature
    is that code. *)
Theorem type_encoding_policy (rt : Runtime) (fr : Frame) :
  validate_online_payment_data (fr_data fr) = Ok true ->
  exists ty,
    fr_data fr !! "type" = Some (VStr ty) /\ ty ∈ valid_types
    /\ (encode_type rt fr).1 = Ok (type_code (fr_encoder fr) ty)
    /\ (forall features,
          (preprocess_online_payment_data rt fr).1 = Ok features ->
          exists code, py_int (type_code (fr_encoder fr) ty) = Ok code
                       /\ features !! 2%nat = Some (VInt code))
    /\ map builtin_code valid_types = [0; 1; 2; 3; 4].
Proof.
  intros Hvalid.
  destruct (valid_online_fields _ Hvalid)
    as (step & ty & amount & oo & no & od & nd & Hs & Ht & Ha & Hoo & Hno & Hod & Hnd & Hin).
  exists ty. repeat split; try done.
  - by destruct (encode_type_run rt fr ty Ht) as [log ->].
  - intros features.
    rewrite (preprocess_online_payment_run rt fr _ _ _ _ _ _ _ Hs Ht Ha Hoo Hno Hod Hnd).
    unfold online_vector.
    destruct (py_sub oo no ≫= _) as [dO|]; [|done]. cbn [mbind Outcome_bind].
    destruct (py_sub nd od ≫= _) as [dD|]; [|done]. cbn [mbind Outcome_bind].
    destruct (py_int (type_code (fr_encoder fr) ty)) as [code|]; [|done].
    cbn [mbind Outcome_bind]. intros [= <-]. by exists code.
Qed.

(** The example record under a plain map that gives PAYMENT the code 7. *)
Lemma type_encoding_policy_witness :
  validate_online_payment_data (online_dict Examples.payment) = Ok true
  /\ exists ty,
       online_dict Examples.payment !! "type" = Some (VStr ty)
       /\ (encode_type Examples.rt0
             (Examples.frame (online_dict Examples.payment) payment_map)).1
          = Ok (type_code payment_map ty).
Proof.
  split; [reflexivity|].
  destruct (type_encoding_policy Examples.rt0
              (Examples.frame (online_dict Examples.payment) payment_map))
    as (ty & Hty & _ & Henc & _); [reflexivity|].
  exists ty. by split.
Defined.

(** *** Credit-card feature builder *)

Lemma card_vector_with_map rt data d nums :
  size d ≠ 0%nat ->
  floats_of rt data numerical_features = Ok nums ->
  card_vector rt data (EncDict d)
  = Ok (nums ++ map (field_code rt d data) categorical_features)%list.
Proof.
  intros Hd Hn. unfold card_vector, categorical_code. rewrite Hn.
  by rewrite bool_decide_eq_true_2.
Qed.

Lemma card_vector_lookup rt data nums (code : string -> PyVal) i feature :
  floats_of rt data numerical_features = Ok nums ->
  categorical_features !! i = Some feature ->
  (nums ++ map code categorical_features)%list !! (6 + i)%nat = Some (code feature).
Proof.
  intros Hn Hi. apply floats_of_length in Hn. simpl in Hn.
  rewrite lookup_app_r by lia.
  replace (6 + i - length nums)%nat with i by lia.
  by rewrite list_lookup_fmap, Hi.
Qed.

Lemma card_vector_length rt data nums (code : string -> PyVal) :
  floats_of rt data numerical_features = Ok nums ->
  length (nums ++ map code categorical_features)%list = 11%nat.
Proof.
  intros Hn. apply floats_of_length in Hn. simpl in Hn.
  by rewrite length_app, Hn.
Qed.

Lemma lookup_size_ne_0 {V} (d : gmap string V) k v : d !! k = Some v -> size d ≠ 0%nat.
Proof.
  intros Hk Hsz. apply map_size_empty_iff in Hsz. subst d.
  by rewrite lookup_empty in Hk.
Qed.

(** C6, as stated, fails for a validated record whose [city_pop] is an
    [int] too large for a [float]: [float(data['city_pop'])] raises
    [OverflowError] before any encoder is consulted, and the exception
    reaches the caller. *)
Lemma overflow_reaches_caller :
  validate_credit_card_data big_card = Ok true
  /\ (preprocess_credit_card_data Examples.rt0 (Examples.frame big_card merchant_unseen)).1
     = Raise (OverflowError "int too large to convert to float").
Proof. split; reflexivity. Qed.

(** C6, amended: for every validated credit-card record whose six numeric
    fields convert to [float], if the encoder map holds an encoder for a
    categorical field and its transform raises on that field's value
    (whatever the exception), [preprocess_credit_card_data] puts 0 for that
    feature, builds the other features as usual, and returns the
    11-element vector; no exception reaches the caller. *)
Theorem failing_transform_gives_zero (rt : Runtime) (fr : Frame)
    (d : gmap string EncEntry) (nums : list PyVal) (i : nat) (feature : string)
    (encoder : EncEntry) :
  validate_credit_card_data (fr_data fr) = Ok true ->
  floats_of rt (fr_data fr) numerical_features = Ok nums ->
  fr_encoder fr = EncDict d ->
  categorical_features !! i = Some feature ->
  d !! feature = Some encoder ->
  (forall v, fr_data fr !! feature = Some v -> exists e, entry_transform encoder v = Raise e) ->
  exists features,
    (preprocess_credit_card_data rt fr).1 = Ok features
    /\ length features = 11%nat
    /\ take 6 features = nums
    /\ features !! (6 + i)%nat = Some (VInt 0)
    /\ forall j other, categorical_features !! j = Some other ->
                       features !! (6 + j)%nat = Some (field_code rt d (fr_data fr) other).
Proof.
  intros Hvalid Hn Henc Hi Hd Hraise.
  pose proof (lookup_size_ne_0 _ _ _ Hd) as Hsz.
  exists (nums ++ map (field_code rt d (fr_data fr)) categorical_features)%list.
  rewrite preprocess_credit_card_run, Henc, (card_vector_with_map _ _ _ _ Hsz Hn).
  split; [done|]. split; [by eapply card_vector_length|].
  split; [|split].
  - rewrite take_app_length'; [done|]. by apply floats_of_length in Hn.
  - rewrite (card_vector_lookup _ _ _ _ _ _ Hn Hi). f_equal.
    destruct (valid_card_string _ feature Hvalid) as [s Hs].
    { by eapply list_elem_of_lookup_2. }
    unfold field_code. rewrite Hd, Hs. cbn [py_str].
    by destruct (Hraise _ Hs) as [e ->].
  - intros j other Hj. by rewrite (card_vector_lookup _ _ _ _ _ _ Hn Hj).
Qed.

(** The example card under a merchant encoder that knows no merchant. *)
Lemma failing_transform_gives_zero_witness :
  validate_credit_card_data (card_dict Examples.card) = Ok true
  /\ exists features,
       (preprocess_credit_card_data Examples.rt0
          (Examples.frame (card_dict Examples.card) merchant_unseen)).1 = Ok features
       /\ length features = 11%nat
       /\ features !! 6%nat = Some (VInt 0).
Proof.
  split; [reflexivity|].
  destruct (failing_transform_gives_zero Examples.rt0
              (Examples.frame (card_dict Examples.card) merchant_unseen)
              {[ "merchant" := EFitted Examples.unfitted ]} card_floats 0 "merchant"
              (EFitted Examples.unfitted))
    as (features & Hrun & Hlen & _ & Hzero & _); try reflexivity.
  { intros v _. by eexists. }
  exists features. by repeat split.
Defined.

(** C10, as stated, fails for an encoder map that is present but empty:
    it holds no encoder for the merchant, yet the merchant feature is the
    hash-based code and not 0. It also fails, as C6 does, on a record whose
    [city_pop] does not convert to [float]: no vector is returned. *)
Lemma empty_map_uses_hash :
  validate_credit_card_data (card_dict Examples.card) = Ok true
  /\ (exists features,
        (preprocess_credit_card_data Examples.rt0
           (Examples.frame (card_dict Examples.card) (EncDict ∅))).1 = Ok features
        /\ features !! 6%nat = Some (VInt 26))
  /\ validate_credit_card_data big_card = Ok true
  /\ (preprocess_credit_card_data Examples.rt0 (Examples.frame big_card category_only)).1
     = Raise (OverflowError "int too large to convert to float").
Proof.
  split; [reflexivity|]. split; [|split; reflexivity].
  eexists. split; reflexivity.
Qed.

(** C10, amended: for every validated credit-card record whose six
    numeric fields convert to [float], when the encoder map is a non-empty
    dict that holds no encoder for one of the five categorical fields,
    [preprocess_credit_card_data] puts 0 for that field and every
    categorical feature comes from the map (none from the hash); the
    hash-based code [abs(hash(lowercased trimmed value)) mod 1000] is used
    when the encoder argument is [None], an empty dict, or not a dict; in
    each case the result is an 11-element vector. *)
Theorem missing_encoder_gives_zero (rt : Runtime) (fr : Frame) (nums : list PyVal) :
  validate_credit_card_data (fr_data fr) = Ok true ->
  floats_of rt (fr_data fr) numerical_features = Ok nums ->
  (forall d i feature,
      fr_encoder fr = EncDict d -> size d ≠ 0%nat ->
      categorical_features !! i = Some feature -> d !! feature = None ->
      exists features,
        (preprocess_credit_card_data rt fr).1 = Ok features
        /\ length features = 11%nat
        /\ features !! (6 + i)%nat = Some (VInt 0)
        /\ features = (nums ++ map (field_code rt d (fr_data fr)) categorical_features)%list)
  /\ ((fr_encoder fr = EncNone \/ fr_encoder fr = EncDict ∅
       \/ exists t, fr_encoder fr = EncFitted t) ->
      exists features,
        (preprocess_credit_card_data rt fr).1 = Ok features
        /\ length features = 11%nat
        /\ forall i feature,
             categorical_features !! i = Some feature ->
             exists s, fr_data fr !! feature = Some (VStr s)
                       /\ features !! (6 + i)%nat
                          = Some (VInt (Z.abs (rt_hash rt (lower (strip s))) `mod` 1000))).
Proof.
  intros Hvalid Hn. split.
  - intros d i feature Henc Hsz Hi Hd.
    exists (nums ++ map (field_code rt d (fr_data fr)) categorical_features)%list.
    rewrite preprocess_credit_card_run, Henc, (card_vector_with_map _ _ _ _ Hsz Hn).
    split; [done|]. split; [by eapply card_vector_length|]. split; [|done].
    rewrite (card_vector_lookup _ _ _ _ _ _ Hn Hi).
    unfold field_code. by rewrite Hd.
  - intros Henc.
    exists (nums ++ map (hash_code rt (fr_data fr)) categorical_features)%list.
    split; [|split; [by eapply card_vector_length|]].
    + rewrite preprocess_credit_card_run. unfold card_vector. rewrite Hn.
      cbn [mbind Outcome_bind].
      destruct Henc as [-> | [-> | [t ->]]]; reflexivity.
    + intros i feature Hi.
      destruct (valid_card_string _ feature Hvalid) as [s Hs].
      { by eapply list_elem_of_lookup_2. }
      exists s. split; [done|].
      rewrite (card_vector_lookup _ _ _ _ _ _ Hn Hi).
      unfold hash_code. by rewrite Hs.
Qed.

(** The example card under a map that has an encoder for the category only. *)
Lemma missing_encoder_gives_zero_witness :
  validate_credit_card_data (card_dict Examples.card) = Ok true
  /\ exists features,
       (preprocess_credit_card_data Examples.rt0
          (Examples.frame (card_dict Examples.card) category_only)).1 = Ok features
       /\ length features = 11%nat
       /\ features !! 6%nat = Some (VInt 0).
Proof.
  split; [reflexivity|].
  destruct (missing_encoder_gives_zero Examples.rt0
              (Examples.frame (card_dict Examples.card) category_only) card_floats)
    as [Hmap _]; try reflexivity.
  destruct (Hmap {[ "category" := EFitted (fun _ => Ok 3) ]} 0%nat "merchant")
    as (features & Hrun & Hlen & Hzero & _); try reflexivity.
  { by vm_compute. }
  exists features. by repeat split.
Defined.

(** *** Model registry *)

Ltac runw :=
  repeat
    (unfold mbind, M_bind, Outcome_bind, mret, M_ret, Outcome_ret, try_except, lift,
       raise, gets, modify, ModelLoader.logger_log, record_call, update_loader,
       set_model, set_label_encoder, set_loaded;
     cbn [fst snd w_loader w_log w_trace models label_encoders loaded_models negb]).

(** C8, as stated, fails for a domain that an earlier call loaded: when
    the model artifact is missing, [load_model] returns false from the
    [exists] test, a path that writes nothing, and the domain is still
    marked loaded afterwards. *)
Lemma missing_artifact_keeps_loaded_status :
  fs_exists no_files "online_payment.pkl" = false
  /\ (load_model Examples.rt0 no_files "online-payment" "online_payment.pkl" None
        (world_with "online-payment" (estimator 5))).1 = Ok false
  /\ is_model_loaded
       (w_loader (load_model Examples.rt0 no_files "online-payment" "online_payment.pkl"
                    None (world_with "online-payment" (estimator 5))).2)
       "online-payment" = true
  /\ (get_model "online-payment"
        (load_model Examples.rt0 no_files "online-payment" "online_payment.pkl" None
           (world_with "online-payment" (estimator 5))).2).1 = Ok (estimator 5).
Proof. split; [reflexivity | split; [reflexivity | split; reflexivity]]. Qed.

(** C8, amended: when the model artifact is missing, [load_model] returns
    false and leaves the registry exactly as it was, so that the domain
    keeps the status it had before the call (unloaded for a domain never
    loaded, loaded for a domain loaded earlier); when the artifact exists
    and neither joblib nor pickle can deserialize it, [load_model] returns
    false and marks the domain unloaded, whatever its status was; when the
    model loads and the encoder artifact is missing or fails to
    deserialize, it returns true, the domain is marked loaded, and
    [get_label_encoders] then gives [None] for the domain. *)
Theorem load_model_outcomes (rt : Runtime) (fs : FileSystem)
    (model_name model_path : string) (encoder_path : option string) (w : World) :
  let after := load_model rt fs model_name model_path encoder_path w in
  (fs_exists fs model_path = false ->
   after.1 = Ok false
   /\ w_loader after.2 = w_loader w
   /\ is_model_loaded (w_loader after.2) model_name
      = is_model_loaded (w_loader w) model_name)
  /\ (fs_exists fs model_path = true ->
      (exists e, fs_joblib_model fs model_path = Raise e) ->
      (exists e, fs_pickle_model fs model_path = Raise e) ->
      after.1 = Ok false
      /\ is_model_loaded (w_loader after.2) model_name = false)
  /\ (fs_exists fs model_path = true ->
      (exists m, fs_joblib_model fs model_path = Ok m
                 \/ ((exists e, fs_joblib_model fs model_path = Raise e)
                     /\ fs_pickle_model fs model_path = Ok m)) ->
      (encoder_available fs encoder_path = false
       \/ exists e, fs_joblib_encoder fs (str_path encoder_path) = Raise e) ->
      after.1 = Ok true
      /\ is_model_loaded (w_loader after.2) model_name = true
      /\ (get_label_encoders model_name after.2).1 = Ok EncNone).
Proof.
  cbv zeta. unfold load_model. split; [|split].
  - intros ->. runw. by repeat split.
  - intros -> [e1 He1] [e2 He2]. runw. rewrite He1. runw. rewrite He2. runw.
    split; [done|]. unfold is_model_loaded. runw. by rewrite lookup_insert_eq.
  - intros -> [m Hm] Henc. runw.
    destruct Hm as [Hm | [[e1 He1] Hm]].
    + rewrite Hm. runw.
      destruct Henc as [Hna | [e He]].
      * rewrite Hna. runw. unfold is_model_loaded, get_label_encoders. runw.
        by rewrite !lookup_insert_eq.
      * destruct (encoder_available fs encoder_path); runw.
        -- rewrite He. runw. unfold is_model_loaded, get_label_encoders. runw.
           by rewrite !lookup_insert_eq.
        -- unfold is_model_loaded, get_label_encoders. runw.
           by rewrite !lookup_insert_eq.
    + rewrite He1. runw. rewrite Hm. runw.
      destruct Henc as [Hna | [e He]].
      * rewrite Hna. runw. unfold is_model_loaded, get_label_encoders. runw.
        by rewrite !lookup_insert_eq.
      * destruct (encoder_available fs encoder_path); runw.
        -- rewrite He. runw. unfold is_model_loaded, get_label_encoders. runw.
           by rewrite !lookup_insert_eq.
        -- unfold is_model_loaded, get_label_encoders. runw.
           by rewrite !lookup_insert_eq.
Qed.

(** Loading from a store with no file, with corrupt files (into a fresh
    registry and over a loaded domain), and with the model file only. *)
Lemma load_model_outcomes_witness :
  (load_model Examples.rt0 no_files "online-payment" "online_payment.pkl" None fresh).1
  = Ok false
  /\ is_model_loaded
       (w_loader (load_model Examples.rt0 no_files "online-payment" "online_payment.pkl"
                    None fresh).2) "online-payment" = false
  /\ (load_model Examples.rt0 corrupt_files "online-payment" "online_payment.pkl" None
        fresh).1 = Ok false
  /\ is_model_loaded
       (w_loader (load_model Examples.rt0 corrupt_files "online-payment"
                    "online_payment.pkl" None
                    (world_with "online-payment" (estimator 5))).2)
       "online-payment" = false
  /\ (load_model Examples.rt0 model_only "online-payment" "online_payment.pkl"
        (Some "online_payment_label_encoder.pkl") fresh).1 = Ok true.
Proof.
  destruct (load_model_outcomes Examples.rt0 no_files "online-payment" "online_payment.pkl"
              None fresh) as [Hmissing _].
  destruct (load_model_outcomes Examples.rt0 corrupt_files "online-payment"
              "online_payment.pkl" None fresh) as (_ & Hcorrupt & _).
  destruct (load_model_outcomes Examples.rt0 model_only "online-payment"
              "online_payment.pkl" (Some "online_payment_label_encoder.pkl") fresh)
    as (_ & _ & Hencoder).
  destruct (load_model_outcomes Examples.rt0 corrupt_files "online-payment"
              "online_payment.pkl" None (world_with "online-payment" (estimator 5)))
    as (_ & Hreload & _).
  destruct (Hmissing eq_refl) as (H1 & _ & H2).
  destruct (Hcorrupt eq_refl (ex_intro _ _ eq_refl) (ex_intro _ _ eq_refl)) as (H3 & _).
  destruct (Hreload eq_refl (ex_intro _ _ eq_refl) (ex_intro _ _ eq_refl)) as (_ & H5).
  destruct (Hencoder eq_refl (ex_intro _ _ (or_introl eq_refl)) (or_introl eq_refl))
    as (H4 & _).
  split; [exact H1 |].
  split; [exact (eq_trans H2 eq_refl) |].
  split; [exact H3 | split; [exact H5 | exact H4]].
Defined.

(** *** Inference dispatcher *)

Ltac runs :=
  repeat
    (unfold mbind, M_bind, Outcome_bind, mret, M_ret, Outcome_ret, try_except, lift,
       raise, gets, modify, ModelLoader.logger_log, record_call, update_loader;
     cbn [fst snd w_loader w_log w_trace negb str_exn]).

(** C3: what the code does with a request that fails validation. The
    [HTTPException] with status 400 is raised inside the [try] whose
    [except Exception] clause catches it, so the caller receives the generic
    status-500 error; no feature builder and no estimator is called. *)
Theorem invalid_request_reported_as_500 (rt : Runtime) (w : World) :
  (forall data : OnlinePaymentInput,
      validate_online_payment_data (online_dict data) = Ok false ->
      let after := predict_online_payment_fraud rt data w in
      after.1 = Raise (HTTPException 500
                         ("Online payment prediction failed: "
                          +:+ rt_http_str rt 400 "Invalid online payment data"))
      /\ w_trace after.2 = w_trace w /\ w_loader after.2 = w_loader w)
  /\ (forall data : CreditCardInput,
        validate_credit_card_data (card_dict data) = Ok false ->
        let after := predict_credit_card_fraud rt data w in
        after.1 = Raise (HTTPException 500
                           ("Credit card prediction failed: "
                            +:+ rt_http_str rt 400 "Invalid credit card data"))
        /\ w_trace after.2 = w_trace w /\ w_loader after.2 = w_loader w).
Proof.
  split; intros data Hinvalid; cbv zeta.
  - unfold predict_online_payment_fraud. runs. rewrite Hinvalid. runs.
    split; [reflexivity | split; reflexivity].
  - unfold predict_credit_card_fraud. runs. rewrite Hinvalid. runs.
    split; [reflexivity | split; reflexivity].
Qed.

(** A payment of type REFUND sent to a service whose model is loaded. *)
Lemma invalid_request_reported_as_500_witness :
  validate_online_payment_data (online_dict refund) = Ok false
  /\ (predict_online_payment_fraud Examples.rt0 refund (world_with "online-payment" (estimator 5))).1
     = Raise (HTTPException 500
                "Online payment prediction failed: 400: Invalid online payment data").
Proof.
  split; [reflexivity|].
  destruct (invalid_request_reported_as_500 Examples.rt0
              (world_with "online-payment" (estimator 5))) as [Honline _].
  destruct (Honline refund eq_refl) as [H _]. exact H.
Defined.

Lemma get_model_loaded w domain model :
  loaded_models (w_loader w) !! domain = Some true ->
  models (w_loader w) !! domain = Some model ->
  get_model domain w = (Ok model, w).
Proof.
  intros Hl Hm. unfold get_model. runs. rewrite Hl. runs. by rewrite (getitem_Some _ _ _ Hm).
Qed.

Lemma check_predict_score_mismatch w domain names features amount model :
  get_model domain w = (Ok model, w) ->
  Z.of_nat (length features) ≠ n_features_in_ model ->
  check_predict_score domain names features amount w
  = (Raise (ValueError ("Feature count mismatch: generated "
                        +:+ pretty (Z.of_nat (length features))
                        +:+ ", model expects " +:+ pretty (n_features_in_ model))), w).
Proof.
  intros Hm Hne. unfold check_predict_score.
  unfold mbind at 1, M_bind at 1. rewrite Hm.
  by rewrite bool_decide_eq_true_2.
Qed.

(** C4: for every request that passes validation and whose built feature
    vector has a length other than the loaded model's [n_features_in_], the
    dispatcher fails the request with the feature-count mismatch error
    (surfaced to the caller through the status-500 wrapper, which carries
    its message); the estimator is never called, so no truncated or padded
    vector reaches it; this holds for both domains. *)
Theorem feature_count_mismatch_fails (rt : Runtime) (w : World) (model : Estimator)
    (features : list PyVal) :
  Z.of_nat (length features) ≠ n_features_in_ model ->
  (forall data : OnlinePaymentInput,
      validate_online_payment_data (online_dict data) = Ok true ->
      loaded_models (w_loader w) !! "online-payment" = Some true ->
      models (w_loader w) !! "online-payment" = Some model ->
      (preprocess_online_payment_data rt
         {| fr_data := online_dict data;
            fr_encoder := default EncNone (label_encoders (w_loader w) !! "online-payment");
            fr_log := w_log w |}).1 = Ok features ->
      let after := predict_online_payment_fraud rt data w in
      after.1 = Raise (HTTPException 500
                         ("Online payment prediction failed: "
                          +:+ "Feature count mismatch: generated "
                          +:+ pretty (Z.of_nat (length features))
                          +:+ ", model expects " +:+ pretty (n_features_in_ model)))
      /\ w_trace after.2 = append (w_trace w) (CallBuild "online-payment"))
  /\ (forall data : CreditCardInput,
        validate_credit_card_data (card_dict data) = Ok true ->
        loaded_models (w_loader w) !! "credit-card" = Some true ->
        models (w_loader w) !! "credit-card" = Some model ->
        (preprocess_credit_card_data rt
           {| fr_data := card_dict data;
              fr_encoder := default EncNone (label_encoders (w_loader w) !! "credit-card");
              fr_log := w_log w |}).1 = Ok features ->
        let after := predict_credit_card_fraud rt data w in
        after.1 = Raise (HTTPException 500
                           ("Credit card prediction failed: "
                            +:+ "Feature count mismatch: generated "
                            +:+ pretty (Z.of_nat (length features))
                            +:+ ", model expects " +:+ pretty (n_features_in_ model)))
        /\ w_trace after.2 = append (w_trace w) (CallBuild "credit-card")).
Proof.
  intros Hne. split; intros data Hvalid Hl Hm Hbuild; cbv zeta.
  - unfold predict_online_payment_fraud, get_label_encoders, call_builder. runs.
    rewrite Hvalid. runs.
    destruct (preprocess_online_payment_data rt _) as [r fr']. simpl in Hbuild. subst r.
    rewrite (check_predict_score_mismatch _ _ _ _ _ model); [runs; split; reflexivity| |done].
    by apply get_model_loaded.
  - unfold predict_credit_card_fraud, get_label_encoders, call_builder. runs.
    rewrite Hvalid. runs.
    destruct (preprocess_credit_card_data rt _) as [r fr']. simpl in Hbuild. subst r.
    rewrite (check_predict_score_mismatch _ _ _ _ _ model); [runs; split; reflexivity| |done].
    by apply get_model_loaded.
Qed.

(** The example payment sent to a service whose estimator was fit on four
    columns. *)
Lemma feature_count_mismatch_fails_witness :
  (predict_online_payment_fraud Examples.rt0 Examples.payment
     (world_with "online-payment" (estimator 4))).1
  = Raise (HTTPException 500
             "Online payment prediction failed: Feature count mismatch: generated 5, model expects 4").
Proof.
  destruct (feature_count_mismatch_fails Examples.rt0
              (world_with "online-payment" (estimator 4)) (estimator 4)
              [VInt 1; VFloat 9839.64; VInt 0; VFloat 19679.280000000013;
               VFloat (-9839.64)]) as [Honline _]; [by vm_compute|].
  destruct (Honline Examples.payment eq_refl eq_refl eq_refl eq_refl) as [H _].
  exact H.
Defined.
